(** * changellypy: a shallow embedding of [changellypy/__init__.py]

    The module defines one class, [ChangellyPy], whose methods build a
    JSON-RPC envelope, sign it with HMAC-SHA512 and post it to a fixed URL.
    The embedding keeps the shape of the Python code:

    - Python values are an inductive type [pyval]; dictionaries are
      association lists in insertion order (the order [json.dumps] emits);
    - exceptions are an inductive type [exn]; a method is a function from a
      [world] to an [outcome] and a new [world] (state passing with errors);
    - the [world] holds the class attribute [ChangellyPy._headers] (one
      dictionary object shared by all instances), the heap of instances (each
      with its own [_secret] and, once assigned, its own [currency_list]),
      and the list of requests posted so far;
    - what the module imports ([json.dumps], [hmac], [requests.post]) and
      the builtins on strings and floats ([str.lower], [str.upper], [float],
      [round], [str], [format], [<]) are fields of the class [Runtime]: every
      theorem holds for each of them. *)

From Stdlib Require Import String Ascii List ZArith Bool Arith Lia DecimalString.
Import ListNotations.
Open Scope string_scope.
Set Warnings "-register-all".

(** ** Python values *)

Section Values.

(** The type of Python floats is left open. *)
Variable float : Type.

Inductive pyval : Type :=
| VNone
| VBool (b : bool)
| VInt (z : Z)
| VFloat (x : float)
| VStr (s : string)
| VList (l : list pyval)
| VDict (d : list (string * pyval)).

(** What [requests.post] is called with: [API_URL], [headers=], [data=].
    [envelope] is the dictionary that [json.dumps] turned into [data]. *)
Record request : Type := mkRequest {
  url : string;
  headers : list (string * string);
  data : string;
  envelope : pyval
}.

(** What [requests.post] gives back.  [Response ok body]: [response.ok]
    and the value of [response.json()] ([None] when the body is not JSON). *)
Inductive response : Type :=
| Response (ok : bool) (json : option pyval)
| NoResponse.

(** The attributes of one instance: [_secret] is assigned by [__init__];
    [currency_list] is absent until [get_currencies] assigns it, and a read
    of [self.currency_list] then falls back to the class attribute. *)
Record instance : Type := mkInstance {
  _secret : list Byte.byte;
  currency_list : option pyval
}.

(** The state the methods run in. *)
Record world : Type := mkWorld {
  (** the dictionary object bound to the class attribute [_headers] *)
  _headers : list (string * string);
  (** the instances created so far; [self] is an index in this list *)
  heap : list instance;
  (** the requests posted so far, oldest first *)
  sent : list request
}.

End Values.

Arguments VNone {float}.
Arguments VBool {float} b.
Arguments VInt {float} z.
Arguments VFloat {float} x.
Arguments VStr {float} s.
Arguments VList {float} l.
Arguments VDict {float} d.
Arguments mkRequest {float} url headers data envelope.
Arguments url {float} r.
Arguments headers {float} r.
Arguments data {float} r.
Arguments envelope {float} r.
Arguments Response {float} ok json.
Arguments NoResponse {float}.
Arguments mkInstance {float} _secret currency_list.
Arguments _secret {float} i.
Arguments currency_list {float} i.
Arguments mkWorld {float} _headers heap sent.
Arguments _headers {float} w.
Arguments heap {float} w.
Arguments sent {float} w.

(** ** Exceptions and outcomes *)

Inductive exn : Type :=
| TypeError
| AttributeError
| KeyError
| OverflowError
| ValueError (msg : string)
| IndexError (msg : string)
| HTTPError
| JSONDecodeError
| ConnectionError.

Inductive outcome (A : Type) : Type :=
| Ok (a : A)
| Raise (e : exn).

Arguments Ok {A} a.
Arguments Raise {A} e.

(** ** Dictionaries (insertion-ordered, string keys) *)

Section Dict.

Context {V : Type}.

Fixpoint dict_get (k : string) (d : list (string * V)) : option V :=
  match d with
  | [] => None
  | (k', v) :: d' => if String.eqb k k' then Some v else dict_get k d'
  end.

(** [d[k] = v]: an existing key keeps its place, a new one goes last. *)
Fixpoint dict_set (k : string) (v : V) (d : list (string * V)) : list (string * V) :=
  match d with
  | [] => [(k, v)]
  | (k', v') :: d' =>
      if String.eqb k k' then (k', v) :: d' else (k', v') :: dict_set k v d'
  end.

Definition dict_keys (d : list (string * V)) : list string := map fst d.

End Dict.

(** ** Strings: [in] on strings *)

(** [needle in hay] for two strings: substring test. *)
Fixpoint contains (needle hay : string) : bool :=
  prefix needle hay ||
  match hay with
  | EmptyString => false
  | String _ hay' => contains needle hay'
  end.

(** ** The runtime: imported modules and float builtins *)

Class Runtime : Type := {
  float : Type;
  (** [s.lower()] *)
  lower : string -> string;
  (** [s.upper()] *)
  upper : string -> string;
  (** [float(s)] for a string; [None] is [ValueError] *)
  float_of_string : string -> option float;
  (** the message of that [ValueError], which quotes [s] *)
  float_error : string -> string;
  (** [float(n)] for an integer; [None] is [OverflowError] *)
  float_of_int : Z -> option float;
  (** [x < y] on floats *)
  float_lt : float -> float -> bool;
  (** [round(x, 8)] *)
  round8 : float -> float;
  (** ['{:.8f}'.format(x)] *)
  format_8f : float -> string;
  (** [str(v)] *)
  py_str : pyval float -> string;
  (** [json.dumps(v)] *)
  json_dumps : pyval float -> string;
  (** [s.encode('utf-8')] *)
  encode_utf8 : string -> list Byte.byte;
  (** [hmac.new(key, msg, hashlib.sha512).hexdigest()] *)
  hmac_sha512_hexdigest : list Byte.byte -> list Byte.byte -> string;
  (** [requests.post]: the answer to a request, given the requests posted
      before it *)
  post : list (request float) -> request float -> response float
}.

Section Client.

Context {rt : Runtime}.

Local Abbreviation value := (pyval float).
Local Abbreviation instance := (instance float).
Local Abbreviation world := (world float).

(** ** Builtins on values *)

Definition is_none (v : value) : bool :=
  match v with VNone => true | _ => false end.

(** [isinstance(v, str)] *)
Definition is_str (v : value) : bool :=
  match v with VStr _ => true | _ => false end.

(** [len(v)] *)
Definition py_len (v : value) : outcome nat :=
  match v with
  | VStr s => Ok (String.length s)
  | VList l => Ok (List.length l)
  | VDict d => Ok (List.length d)
  | _ => Raise TypeError
  end.

(** [x == v] for a string [x] *)
Definition str_eq (x : string) (v : value) : bool :=
  match v with VStr s => String.eqb x s | _ => false end.

(** [x in c] for a string [x] *)
Definition py_in (x : string) (c : value) : outcome bool :=
  match c with
  | VList l => Ok (existsb (str_eq x) l)
  | VStr s => Ok (contains x s)
  | VDict d => Ok (existsb (String.eqb x) (dict_keys d))
  | _ => Raise TypeError
  end.

(** [float(v)] *)
Definition py_float (v : value) : outcome float :=
  match v with
  | VFloat x => Ok x
  | VStr s =>
      match float_of_string s with
      | Some x => Ok x
      | None => Raise (ValueError (float_error s))
      end
  | VInt z =>
      match float_of_int z with Some x => Ok x | None => Raise OverflowError end
  | VBool b =>
      match float_of_int (if b then 1 else 0) with
      | Some x => Ok x
      | None => Raise OverflowError
      end
  | _ => Raise TypeError
  end.

(** [v[idx]] for an integer index below [len(v)] *)
Definition getitem_int (v : value) (idx : nat) : outcome value :=
  match v with
  | VList l =>
      match nth_error l idx with
      | Some e => Ok e
      | None => Raise (IndexError "list index out of range")
      end
  | VStr s =>
      match String.get idx s with
      | Some c => Ok (VStr (String c EmptyString))
      | None => Raise (IndexError "string index out of range")
      end
  | VDict _ => Raise KeyError
  | _ => Raise TypeError
  end.

(** [v[k]] for a string key *)
Definition getitem_str (v : value) (k : string) : outcome value :=
  match v with
  | VDict d =>
      match dict_get k d with Some e => Ok e | None => Raise KeyError end
  | _ => Raise TypeError
  end.

(** [v[k] = e] for a string key *)
Definition setitem_str (v : value) (k : string) (e : value) : outcome value :=
  match v with
  | VDict d => Ok (VDict (dict_set k e d))
  | _ => Raise TypeError
  end.

Fixpoint list_set {A : Type} (l : list A) (idx : nat) (a : A) : list A :=
  match l, idx with
  | [], _ => []
  | _ :: l', O => a :: l'
  | b :: l', S i => b :: list_set l' i a
  end.

(** [[*map(str.lower, l)]] on the elements of a list *)
Fixpoint lower_all (l : list value) : outcome (list string) :=
  match l with
  | [] => Ok []
  | VStr s :: l' =>
      match lower_all l' with
      | Ok r => Ok (lower s :: r)
      | Raise e => Raise e
      end
  | _ :: _ => Raise TypeError
  end.

(** ** The world *)

Definition API_URL : string := "https://api.changelly.com".

(** The class body: [_headers = {...}] and [currency_list = list()]. *)
Definition class_headers : list (string * string) :=
  [("api-key", EmptyString); ("sign", EmptyString);
   ("Content-type", "application/json")].

Definition class_currency_list : value := VList [].

Definition initial_world : world :=
  mkWorld class_headers [] [].

(** ** The monad of methods *)

Definition M (A : Type) : Type := world -> outcome A * world.

Definition ret {A : Type} (a : A) : M A := fun w => (Ok a, w).

Definition raise {A : Type} (e : exn) : M A := fun w => (Raise e, w).

Definition bind {A B : Type} (m : M A) (k : A -> M B) : M B :=
  fun w =>
    match m w with
    | (Ok a, w') => k a w'
    | (Raise e, w') => (Raise e, w')
    end.

Definition lift {A : Type} (o : outcome A) : M A := fun w => (o, w).

End Client.

Declare Scope py_scope.
Delimit Scope py_scope with py.
Notation "x <- m ;; k" := (bind m (fun x => k))
  (at level 61, m at next level, right associativity) : py_scope.
Notation "m ;;; k" := (bind m (fun _ => k))
  (at level 61, right associativity) : py_scope.
Open Scope py_scope.

(** * The class [ChangellyPy] *)

Section Methods.

Context {rt : Runtime}.

Local Abbreviation value := (pyval float).
Local Abbreviation instance := (instance float).
Local Abbreviation world := (world float).

(** Reading [self.currency_list]: the instance attribute when it has been
    assigned, the class attribute otherwise. *)
Definition get_currency_list (o : instance) : value :=
  match currency_list o with
  | Some v => v
  | None => class_currency_list
  end.

(** The instance [self] of the heap; a [self] that was never constructed has
    no attributes. *)
Definition this (self : nat) : M instance :=
  fun w =>
    match nth_error (heap w) self with
    | Some o => (Ok o, w)
    | None => (Raise AttributeError, w)
    end.

(** [self.currency_list = v] *)
Definition set_currency_list (self : nat) (v : value) : M unit :=
  fun w =>
    match nth_error (heap w) self with
    | Some o =>
        (Ok tt, mkWorld (_headers w)
                  (list_set (heap w) self (mkInstance (_secret o) (Some v)))
                  (sent w))
    | None => (Raise AttributeError, w)
    end.

(** [self._headers[k] = v]: [_headers] is never assigned on an instance, so
    the dictionary that is updated is the one of the class. *)
Definition set_header (k v : string) : M unit :=
  fun w => (Ok tt, mkWorld (dict_set k v (_headers w)) (heap w) (sent w)).

(** [req.post(API_URL, headers=self._headers, data=data)] *)
Definition req_post (data : string) (envelope : value) : M (response float) :=
  fun w =>
    let q := mkRequest API_URL (_headers w) data envelope in
    (Ok (post (sent w) q), mkWorld (_headers w) (heap w) (sent w ++ [q])).

(** [ChangellyPy(key, secret)]: a new instance, then [__init__]. *)
Definition __init__ (key secret : string) : M nat :=
  fun w =>
    let self := List.length (heap w) in
    (Ok self,
     mkWorld (dict_set "api-key" key (_headers w))
       (heap w ++ [mkInstance (encode_utf8 secret) None])
       (sent w)).

(** The dictionary [_request] serializes. *)
Definition rpc_envelope (command : string) (params : value) : value :=
  VDict [("jsonrpc", VStr "2.0");
         ("id", VInt 1);
         ("method", VStr command);
         ("params", if is_none params then VList [] else params)].

(** [response.json().get('result')] *)
Definition json_result (body : option value) : outcome value :=
  match body with
  | None => Raise JSONDecodeError
  | Some (VDict d) =>
      match dict_get "result" d with Some v => Ok v | None => Ok VNone end
  | Some _ => Raise AttributeError
  end.

Definition _request (self : nat) (command : string) (params : value) : M value :=
  o <- this self ;;
  let envelope := rpc_envelope command params in
  let data := json_dumps envelope in
  set_header "sign" (hmac_sha512_hexdigest (_secret o) (encode_utf8 data)) ;;;
  response <- req_post data envelope ;;
  match response with
  | Response true body => lift (json_result body)
  | Response false _ => raise HTTPError
  | NoResponse => raise ConnectionError
  end.

Definition get_currencies (self : nat) : M value :=
  o <- this self ;;
  n <- lift (py_len (get_currency_list o)) ;;
  (if (n =? 0)%nat
   then r <- _request self "getCurrencies" VNone ;; set_currency_list self r
   else ret tt) ;;;
  o <- this self ;;
  ret (get_currency_list o).

Definition invalid_currency : exn := ValueError "Invalid currency error.".

Definition get_min_amount (self : nat) (from_currency to_currency : string) : M float :=
  let from_currency := lower from_currency in
  let to_currency := lower to_currency in
  l <- get_currencies self ;;
  a <- lift (py_in from_currency l) ;;
  b <- (if a : bool
        then l <- get_currencies self ;; lift (py_in to_currency l)
        else ret false) ;;
  if b : bool then
    let params := VDict [("from", VStr from_currency); ("to", VStr to_currency)] in
    r <- _request self "getMinAmount" params ;;
    x <- lift (py_float r) ;;
    ret (round8 x)
  else raise invalid_currency.

(** Lines 108-110 and 112-114: a string becomes a one-element list, then
    [str.lower] is mapped over the elements (over the keys, for a
    dictionary); [None] and numbers are not iterable. *)
Definition currency_codes (c : value) : outcome (list string) :=
  match c with
  | VStr s => lower_all [VStr s]
  | VList l => lower_all l
  | VDict d => lower_all (map VStr (dict_keys d))
  | _ => Raise TypeError
  end.

Definition below_minimum (min_amount : float) (f : string) : exn :=
  ValueError ("Min. mount is amount " ++ format_8f min_amount ++ " " ++ upper f ++ ".").

(** Lines 118-124: the loop over [zip(from_currency, to_currency)].  The
    tuple given to [all] is built first, so both memberships are evaluated. *)
Fixpoint check_pairs (self : nat) (amount : float) (pairs : list (string * string)) : M unit :=
  match pairs with
  | [] => ret tt
  | (f, t) :: pairs' =>
      l <- get_currencies self ;;
      a <- lift (py_in f l) ;;
      l <- get_currencies self ;;
      b <- lift (py_in t l) ;;
      (if a && b then
         min_amount <- get_min_amount self f t ;;
         if float_lt amount min_amount
         then raise (below_minimum min_amount f)
         else ret tt
       else raise invalid_currency) ;;;
      check_pairs self amount pairs'
  end.

Definition quote (amount : float) (ft : string * string) : value :=
  VDict [("from", VStr (fst ft)); ("to", VStr (snd ft)); ("amount", VFloat amount)].

(** Lines 144-145: [for idx in range(0, elements_count)], [n] iterations
    left. *)
Fixpoint round_amounts (result : value) (idx n : nat) : outcome value :=
  match n with
  | O => Ok result
  | S n' =>
      match getitem_int result idx with
      | Raise e => Raise e
      | Ok record =>
          match getitem_str record "amount" with
          | Raise e => Raise e
          | Ok a =>
              match py_float a with
              | Raise e => Raise e
              | Ok x =>
                  match setitem_str record "amount" (VFloat (round8 x)) with
                  | Raise e => Raise e
                  | Ok record' =>
                      match result with
                      | VList l =>
                          round_amounts (VList (list_set l idx record')) (S idx) n'
                      | _ => round_amounts result (S idx) n'
                      end
                  end
              end
          end
      end
  end.

(** The double-quote character, for the message of line 129. *)
Definition dquote : string := String (ascii_of_nat 34) EmptyString.

Definition shape_mismatch : exn :=
  IndexError (dquote ++ "From" ++ dquote ++ " and " ++ dquote ++ "To" ++ dquote
              ++ " lists do not have the same size.").

(** Lines 108-135 of [get_exchange_amount]: everything before the request,
    which yields the [params] to post. *)
Definition exchange_params (self : nat) (from_currency to_currency amount : value) : M value :=
  from_currency <- lift (currency_codes from_currency) ;;
  to_currency <- lift (currency_codes to_currency) ;;
  amount <- lift (py_float (VStr (py_str amount))) ;;
  check_pairs self amount (combine from_currency to_currency) ;;;
  let from_size := List.length from_currency in
  let to_size := List.length to_currency in
  if negb (from_size =? to_size)%nat then raise shape_mismatch
  else if (from_size =? 1)%nat then
    ret (quote amount (nth 0 from_currency EmptyString,
                       nth 0 to_currency EmptyString))
  else
    ret (VList (map (quote amount) (combine from_currency to_currency))).

(** Lines 139-146 of [get_exchange_amount]: what is made of the result. *)
Definition exchange_result (result : value) : outcome value :=
  match py_len result with
  | Raise e => Raise e
  | Ok elements_count =>
      if is_str result then
        match py_float result with
        | Ok x => Ok (VFloat (round8 x))
        | Raise e => Raise e
        end
      else round_amounts result 0 elements_count
  end.

Definition get_exchange_amount (self : nat) (from_currency to_currency amount : value) : M value :=
  params <- exchange_params self from_currency to_currency amount ;;
  result <- _request self "getExchangeAmount" params ;;
  lift (exchange_result result).

(** [all((v is not None, isinstance(v, str), len(v) > 0))]: the three
    components are evaluated before [all] is called, so [len(v)] is. *)
Definition nonempty_str (v : value) : outcome bool :=
  let a := negb (is_none v) in
  let b := is_str v in
  match py_len v with
  | Ok n => Ok (a && b && (0 <? n)%nat)
  | Raise e => Raise e
  end.

Definition create_transaction (self : nat)
    (from_currency to_currency destination_address amount
     extra_id refund_address refund_extra_id : value) : M value :=
  let extra_id := if is_none extra_id then VStr "null" else extra_id in
  let params := [("from", from_currency);
                 ("to", to_currency);
                 ("address", destination_address);
                 ("extraId", extra_id);
                 ("amount", amount)] in
  c <- lift (nonempty_str refund_address) ;;
  let params := if c : bool then dict_set "refundAddress" refund_address params else params in
  c <- lift (nonempty_str refund_extra_id) ;;
  let params := if c : bool then dict_set "refundExtraId" refund_extra_id params else params in
  tx_id <- _request self "createTransaction" (VDict params) ;;
  ret tx_id.

Definition get_transaction_status (self : nat) (tx_id : value) : M value :=
  let params := VDict [("id", VStr (py_str tx_id))] in
  _request self "getStatus" params.

(** The requests a method posts when it is run in [w]. *)
Definition dispatched {A : Type} (m : M A) (w : world) : list (request float) :=
  skipn (List.length (sent w)) (sent (snd (m w))).

(** The [method] and [params] entries of a posted envelope. *)
Definition method_of (q : request float) : option value :=
  match envelope q with VDict d => dict_get "method" d | _ => None end.

Definition params_of (q : request float) : option value :=
  match envelope q with VDict d => dict_get "params" d | _ => None end.

End Methods.

(** * A runtime for examples

    Strings are ASCII; floats are amounts counted in units of 1e-8 (so
    [round(x, 8)] changes nothing), written in decimal with at most eight
    fractional digits; the keyed digest is a checksum, not SHA-512.  The examples below run the
    methods with this runtime, against a remote service given as a function
    from the request to the answer. *)

Module Sample.

(** [str.lower] and [str.upper] on ASCII letters. *)
Definition lower_ascii (c : ascii) : ascii :=
  let n := nat_of_ascii c in
  if (65 <=? n)%nat && (n <=? 90)%nat then ascii_of_nat (n + 32) else c.

Definition upper_ascii (c : ascii) : ascii :=
  let n := nat_of_ascii c in
  if (97 <=? n)%nat && (n <=? 122)%nat then ascii_of_nat (n - 32) else c.

Fixpoint str_map (f : ascii -> ascii) (s : string) : string :=
  match s with
  | EmptyString => EmptyString
  | String c s' => String (f c) (str_map f s')
  end.

Definition digit (c : ascii) : option Z :=
  let n := nat_of_ascii c in
  if (48 <=? n)%nat && (n <=? 57)%nat then Some (Z.of_nat (n - 48)) else None.

(** [acc]: the digits read so far; [frac]: how many of them follow the dot. *)
Fixpoint parse_amount (s : string) (acc : Z) (frac : option nat) : option Z :=
  match s with
  | EmptyString =>
      match frac with
      | None => Some (acc * 10 ^ 8)%Z
      | Some k => if (k <=? 8)%nat then Some (acc * 10 ^ Z.of_nat (8 - k))%Z else None
      end
  | String c s' =>
      if Ascii.eqb c "."
      then match frac with None => parse_amount s' acc (Some O) | Some _ => None end
      else match digit c with
           | Some d => parse_amount s' (10 * acc + d)%Z (option_map S frac)
           | None => None
           end
  end.

Definition amount_of_string (s : string) : option Z :=
  match s with
  | EmptyString => None
  | _ => parse_amount s 0%Z None
  end.

Definition string_of_Z (z : Z) : string := NilZero.string_of_int (Z.to_int z).

Definition string_of_amount (x : Z) : string :=
  string_of_Z (x / 10 ^ 8) ++ "." ++
  match string_of_Z (10 ^ 8 + x mod 10 ^ 8) with
  | String _ s => s
  | EmptyString => EmptyString
  end.

Fixpoint dumps (v : pyval Z) : string :=
  match v with
  | VNone => "null"
  | VBool b => if b then "true" else "false"
  | VInt z => string_of_Z z
  | VFloat x => string_of_amount x
  | VStr s => dquote ++ s ++ dquote
  | VList l =>
      "[" ++ (fix items (l : list (pyval Z)) : string :=
                match l with
                | [] => EmptyString
                | [e] => dumps e
                | e :: l' => dumps e ++ ", " ++ items l'
                end) l ++ "]"
  | VDict d =>
      "{" ++ (fix items (d : list (string * pyval Z)) : string :=
                match d with
                | [] => EmptyString
                | [(k, e)] => dquote ++ k ++ dquote ++ ": " ++ dumps e
                | (k, e) :: d' => dquote ++ k ++ dquote ++ ": " ++ dumps e ++ ", " ++ items d'
                end) d ++ "}"
  end.

Definition str (v : pyval Z) : string :=
  match v with
  | VNone => "None"
  | VBool b => if b then "True" else "False"
  | VStr s => s
  | _ => dumps v
  end.

Definition checksum (key msg : list Byte.byte) : string :=
  string_of_Z
    (fold_left (fun h b => (h * 31 + Z.of_N (Byte.to_N b)) mod 1000000007)%Z
       (key ++ msg) 7%Z).

(** The runtime whose remote service is [remote]. *)
Definition runtime (remote : list (request Z) -> request Z -> response Z) : Runtime :=
  {| float := Z;
     lower := str_map lower_ascii;
     upper := str_map upper_ascii;
     float_of_string := amount_of_string;
     float_error := fun s => "could not convert string to float: '" ++ s ++ "'";
     float_of_int := fun z => Some (z * 10 ^ 8)%Z;
     float_lt := Z.ltb;
     round8 := fun x => x;
     format_8f := string_of_amount;
     py_str := str;
     json_dumps := dumps;
     encode_utf8 := list_byte_of_string;
     hmac_sha512_hexdigest := checksum;
     post := remote |}.

(** A service that knows [btc], [eth] and [ltc], asks at least 0.001 of any
    currency and gives every transaction the same identifier.  To
    [getExchangeAmount] it answers [quoted], or when there is none, the
    amount itself for one pair and the records themselves for a list. *)
Definition answer (result : pyval Z) : response Z :=
  Response true (Some (VDict [("jsonrpc", VStr "2.0"); ("id", VInt 1); ("result", result)])).

Definition service (quoted : option (response Z))
    (_ : list (request Z)) (q : request Z) : response Z :=
  match envelope q with
  | VDict d =>
      match dict_get "method" d, dict_get "params" d with
      | Some (VStr "getCurrencies"), _ =>
          answer (VList [VStr "btc"; VStr "eth"; VStr "ltc"])
      | Some (VStr "getMinAmount"), _ => answer (VStr "0.001")
      | Some (VStr "getExchangeAmount"), Some p =>
          match quoted, p with
          | Some r, _ => r
          | None, VDict p =>
              match dict_get "amount" p with
              | Some (VFloat x) => answer (VStr (string_of_amount x))
              | _ => Response false None
              end
          | None, VList l => answer (VList l)
          | None, _ => Response false None
          end
      | Some (VStr "createTransaction"), _ => answer (VStr "tx1")
      | _, _ => Response false None
      end
  | _ => Response false None
  end.

Definition exchange : Runtime := runtime (service None).

(** The same, with a number where the quote should be. *)
Definition exchange_quoting_number : Runtime :=
  runtime (service (Some (answer (VInt 1)))).

(** A service whose answers carry no [result] field. *)
Definition silent : Runtime :=
  runtime (fun _ _ => Response true (Some (VDict [("jsonrpc", VStr "2.0"); ("id", VInt 1)]))).

(** A service that refuses every request. *)
Definition down : Runtime :=
  runtime (fun _ _ => Response false None).

(** The world after [ChangellyPy('key', 'secret')]. *)
Definition one_client {rt : Runtime} : world float :=
  snd (__init__ "key" "secret" initial_world).

(** That world once [get_currencies] has run for the client. *)
Definition populated {rt : Runtime} : world float :=
  snd (get_currencies 0 one_client).

Definition currencies {rt : Runtime} : pyval float :=
  VList [VStr "btc"; VStr "eth"; VStr "ltc"].

End Sample.

(** * Client programs

    A call of one of the public methods; a program is a list of calls, each
    on an instance. *)

Inductive call (float : Type) : Type :=
| GetCurrencies
| GetMinAmount (from_currency to_currency : string)
| GetExchangeAmount (from_currency to_currency amount : pyval float)
| CreateTransaction (from_currency to_currency destination_address amount
                     extra_id refund_address refund_extra_id : pyval float)
| GetTransactionStatus (tx_id : pyval float).

Arguments GetCurrencies {float}.
Arguments GetMinAmount {float} from_currency to_currency.
Arguments GetExchangeAmount {float} from_currency to_currency amount.
Arguments CreateTransaction {float} from_currency to_currency destination_address
  amount extra_id refund_address refund_extra_id.
Arguments GetTransactionStatus {float} tx_id.

(** * What one request does *)

Section Requests.

Context {rt : Runtime}.

Local Open Scope list_scope.

Local Abbreviation value := (pyval float).
Local Abbreviation instance := (instance float).
Local Abbreviation world := (world float).

(** The request [_request] posts for the instance [o] in the world [w]. *)
Definition request_of (o : instance) (w : world) (command : string) (params : value) : request float :=
  let envelope := rpc_envelope command params in
  let data := json_dumps envelope in
  mkRequest API_URL
    (dict_set "sign" (hmac_sha512_hexdigest (_secret o) (encode_utf8 data)) (_headers w))
    data envelope.

(** The world once [q] has been posted: the [sign] header stays in the class
    dictionary. *)
Definition after_request (q : request float) (w : world) : world :=
  mkWorld (headers q) (heap w) (sent w ++ [q]).

(** What [_request] makes of the answer. *)
Definition result_of (r : response float) : outcome value :=
  match r with
  | Response true body => json_result body
  | Response false _ => Raise HTTPError
  | NoResponse => Raise ConnectionError
  end.

(** The cached list of [self], as [self.currency_list] reads it. *)
Definition cache_of (self : nat) (w : world) : option value :=
  option_map get_currency_list (nth_error (heap w) self).

(** [len(v) > 0] *)
Definition nonempty (v : value) : Prop := exists n, py_len v = Ok (S n).

(** Results on which [len] raises: [None] and the numbers. *)
Definition sizeless (v : value) : bool :=
  match v with
  | VNone | VBool _ | VInt _ | VFloat _ => true
  | _ => false
  end.

(** [q] calls one of the methods [commands]. *)
Definition calls (commands : list string) (q : request float) : Prop :=
  exists c, In c commands /\ method_of q = Some (VStr c).

(** [m] only adds requests to [sent], and all of them call [commands]. *)
Definition posts_only {A : Type} (commands : list string) (m : M A) : Prop :=
  forall w, exists l, sent (snd (m w)) = sent w ++ l /\ Forall (calls commands) l.

(** The two lookups of the validation in [get_exchange_amount]. *)
Definition lookups : list string := ["getCurrencies"; "getMinAmount"].

(** [minimum f t] is what [get_min_amount(f, t)] computes: the service
    answers every [getMinAmount] request for the lower-cased pair, which is
    the request of that call, with a result that [round(float(result), 8)]
    turns into [minimum f t]. *)
Definition quotes_minimum (minimum : string -> string -> float) (f t : string) : Prop :=
  forall (history : list (request float)) (q : request float),
    envelope q = rpc_envelope "getMinAmount"
                   (VDict [("from", VStr (lower f)); ("to", VStr (lower t))]) ->
    exists r x,
      result_of (post history q) = Ok r /\ py_float r = Ok x /\ round8 x = minimum f t.

(** A code passes the membership tests of the loop when it is in the list
    [L] (line 119) and its lower-case form is (line 90, in
    [get_min_amount]). *)
Definition valid_code (L : list value) (c : string) : Prop :=
  existsb (str_eq c) L = true /\ existsb (str_eq (lower c)) L = true.

(** A pair the loop accepts up to the comparison with the minimum: both
    codes pass the membership tests, and the service quotes the minimum of
    the pair. *)
Definition valid_pair (minimum : string -> string -> float) (L : list value)
    (ft : string * string) : Prop :=
  valid_code L (fst ft) /\ valid_code L (snd ft) /\
  quotes_minimum minimum (fst ft) (snd ft).

Definition below (minimum : string -> string -> float) (amount : float)
    (ft : string * string) : bool :=
  float_lt amount (minimum (fst ft) (snd ft)).

(** The world after [n] further runs of [m]. *)
Fixpoint again {A : Type} (n : nat) (m : M A) (w : world) : world :=
  match n with
  | O => w
  | S n' => again n' m (snd (m w))
  end.

(** The method a call runs. *)
Definition run (self : nat) (c : call float) : M value :=
  match c with
  | GetCurrencies => get_currencies self
  | GetMinAmount f t => x <- get_min_amount self f t ;; ret (VFloat x)
  | GetExchangeAmount f t a => get_exchange_amount self f t a
  | CreateTransaction f t d a e ra re => create_transaction self f t d a e ra re
  | GetTransactionStatus tx => get_transaction_status self tx
  end.

(** The world a program leaves, whatever each call returns or raises. *)
Fixpoint session (calls : list (nat * call float)) (w : world) : world :=
  match calls with
  | [] => w
  | (self, c) :: rest => session rest (snd (run self c w))
  end.

(** [m] leaves every world [w] in a world related to [w] by [R]. *)
Definition keeps (R : world -> world -> Prop) {A : Type} (m : M A) : Prop :=
  forall w, R w (snd (m w)).

(** The secrets of the instances and the [api-key] header are the same. *)
Definition same_credentials (w w' : world) : Prop :=
  map _secret (heap w') = map _secret (heap w) /\
  dict_get "api-key" (_headers w') = dict_get "api-key" (_headers w).

(** Every cached list that is not empty is still the cached list. *)
Definition caches_kept (w w' : world) : Prop :=
  forall i v, cache_of i w = Some v -> nonempty v -> cache_of i w' = Some v.

(** The instances other than [self] are the same. *)
Definition others_untouched (self : nat) (w w' : world) : Prop :=
  forall i, i <> self -> nth_error (heap w') i = nth_error (heap w) i.

(** The remote methods a call may post. *)
Definition may_post (c : call float) : list string :=
  match c with
  | GetCurrencies => ["getCurrencies"]
  | GetMinAmount _ _ => ["getCurrencies"; "getMinAmount"]
  | GetExchangeAmount _ _ _ => ["getCurrencies"; "getMinAmount"; "getExchangeAmount"]
  | CreateTransaction _ _ _ _ _ _ _ => ["createTransaction"]
  | GetTransactionStatus _ => ["getStatus"]
  end.

(** One record of a list result, as lines 144-145 leave it. *)
Definition round_record (record : value) : outcome value :=
  match getitem_str record "amount" with
  | Raise e => Raise e
  | Ok a =>
      match py_float a with
      | Raise e => Raise e
      | Ok x => setitem_str record "amount" (VFloat (round8 x))
      end
  end.

(** The records in order, up to the first that raises. *)
Fixpoint round_records (l : list value) : outcome (list value) :=
  match l with
  | [] => Ok []
  | record :: l' =>
      match round_record record with
      | Raise e => Raise e
      | Ok record' =>
          match round_records l' with
          | Raise e => Raise e
          | Ok l'' => Ok (record' :: l'')
          end
      end
  end.

(** [record'] is the dictionary [record] with its [amount] turned into a
    float and rounded, every other entry and the order of the keys kept. *)
Definition rounded (record record' : value) : Prop :=
  exists d a x,
    record = VDict d /\ dict_get "amount" d = Some a /\ py_float a = Ok x /\
    record' = VDict (dict_set "amount" (VFloat (round8 x)) d) /\
    dict_keys (dict_set "amount" (VFloat (round8 x)) d) = dict_keys d /\
    forall k, String.eqb k "amount" = false ->
              dict_get k (dict_set "amount" (VFloat (round8 x)) d) = dict_get k d.

(** The envelope of the [getMinAmount] lookup of a pair, which
    [get_min_amount] lower-cases. *)
Definition lookup_envelope (ft : string * string) : value :=
  rpc_envelope "getMinAmount"
    (VDict [("from", VStr (lower (fst ft))); ("to", VStr (lower (snd ft)))]).

(** The params [get_exchange_amount] posts for the pairs. *)
Definition quote_params (amount : float) (pairs : list (string * string)) : value :=
  match pairs with
  | [ft] => quote amount ft
  | _ => VList (map (quote amount) pairs)
  end.

Lemma dict_get_set {V : Type} (k : string) (v : V) (d : list (string * V)) :
  dict_get k (dict_set k v d) = Some v.
Proof.
  induction d as [|[k' v'] d IH]; simpl.
  - rewrite String.eqb_refl. reflexivity.
  - destruct (String.eqb k k') eqn:E; simpl; rewrite E; auto.
Qed.

Lemma dict_get_set_other {V : Type} (k k' : string) (v : V) (d : list (string * V)) :
  String.eqb k' k = false -> dict_get k' (dict_set k v d) = dict_get k' d.
Proof.
  intros Hk. induction d as [|[k0 v0] d IH]; simpl.
  - rewrite Hk. reflexivity.
  - destruct (String.eqb k k0) eqn:E; simpl.
    + apply String.eqb_eq in E. subst k0. rewrite Hk. reflexivity.
    + rewrite IH. reflexivity.
Qed.

Lemma skipn_length_app {A : Type} (l1 l2 : list A) :
  skipn (List.length l1) (l1 ++ l2) = l2.
Proof. induction l1 as [|a l1 IH]; simpl; auto. Qed.

Lemma dispatched_eq {A : Type} (m : M A) (w : world) (l : list (request float)) :
  sent (snd (m w)) = sent w ++ l -> dispatched m w = l.
Proof. intros H. unfold dispatched. rewrite H. apply skipn_length_app. Qed.

Lemma dispatched_nil {A : Type} (m : M A) (w : world) :
  snd (m w) = w -> dispatched m w = [].
Proof.
  intros H. apply dispatched_eq. rewrite H. symmetry. apply app_nil_r.
Qed.

Lemma _request_eq (self : nat) (command : string) (params : value) (w : world) (o : instance) :
  nth_error (heap w) self = Some o ->
  _request self command params w =
    (result_of (post (sent w) (request_of o w command params)),
     after_request (request_of o w command params) w).
Proof.
  intros Ho. unfold _request, bind, this. rewrite Ho. cbn.
  unfold request_of, after_request, result_of, lift, raise. cbn.
  destruct (post _ _) as [[] body|]; reflexivity.
Qed.

Lemma _request_unknown (self : nat) (command : string) (params : value) (w : world) :
  nth_error (heap w) self = None ->
  _request self command params w = (Raise AttributeError, w).
Proof.
  intros Ho. unfold _request, bind, this. rewrite Ho. reflexivity.
Qed.

Lemma method_of_request_of (o : instance) (w : world) (command : string) (params : value) :
  method_of (request_of o w command params) = Some (VStr command).
Proof. reflexivity. Qed.

Lemma params_of_request_of (o : instance) (w : world) (command : string) (params : value) :
  params_of (request_of o w command params)
  = Some (if is_none params then VList [] else params).
Proof. reflexivity. Qed.

Lemma _request_dispatched (self : nat) (command : string) (params : value) (w : world) (o : instance) :
  nth_error (heap w) self = Some o ->
  dispatched (_request self command params) w = [request_of o w command params].
Proof.
  intros Ho. apply dispatched_eq. rewrite (_request_eq _ _ _ _ _ Ho). reflexivity.
Qed.

Lemma cache_of_after_request (self : nat) (q : request float) (w : world) :
  cache_of self (after_request q w) = cache_of self w.
Proof. reflexivity. Qed.

Lemma nth_error_list_set {A : Type} (l : list A) (i : nat) (a b : A) :
  nth_error l i = Some b -> nth_error (list_set l i a) i = Some a.
Proof.
  revert i. induction l as [|c l IH]; intros [|i] H; simpl in *; try discriminate; auto.
Qed.

Lemma nth_error_list_set_other {A : Type} (l : list A) (i j : nat) (a : A) :
  i <> j -> nth_error (list_set l i a) j = nth_error l j.
Proof.
  revert i j. induction l as [|c l IH]; intros [|i] [|j] H; simpl; auto.
  - congruence.
Qed.

(** [get_currencies] when the cached list is not empty: no request. *)
Lemma get_currencies_warm (self : nat) (w : world) (v : value) :
  cache_of self w = Some v -> nonempty v ->
  get_currencies self w = (Ok v, w).
Proof.
  unfold cache_of. intros Hc [n Hn].
  destruct (nth_error (heap w) self) as [o|] eqn:Ho; [|discriminate].
  injection Hc as Hv. subst v.
  unfold get_currencies, bind, this, lift, ret. rewrite Ho, Hn. cbn.
  rewrite Ho. reflexivity.
Qed.

(** [get_currencies] when the cached list is empty: one request, whose
    result is assigned to [self.currency_list]. *)
Lemma get_currencies_cold (self : nat) (w : world) (o : instance) :
  nth_error (heap w) self = Some o ->
  py_len (get_currency_list o) = Ok O ->
  let q := request_of o w "getCurrencies" VNone in
  get_currencies self w =
    match result_of (post (sent w) q) with
    | Ok r =>
        (Ok r, mkWorld (headers q)
                 (list_set (heap w) self (mkInstance (_secret o) (Some r)))
                 (sent w ++ [q]))
    | Raise e => (Raise e, after_request q w)
    end.
Proof.
  intros Ho Hn q. unfold get_currencies.
  unfold bind at 1. unfold this at 1. rewrite Ho.
  unfold bind at 1. unfold lift at 1. rewrite Hn. cbn [Nat.eqb].
  unfold bind at 1. unfold bind at 1.
  rewrite (_request_eq _ _ _ _ _ Ho). fold q.
  destruct (result_of (post (sent w) q)) as [r|e]; [|reflexivity].
  unfold set_currency_list, after_request. cbn [heap]. rewrite Ho.
  unfold bind, this. cbn [heap].
  rewrite (nth_error_list_set _ _ _ _ Ho). reflexivity.
Qed.

(** The length of the cached list decides which of the two applies. *)
Lemma get_currencies_unsized (self : nat) (w : world) (o : instance) (e : exn) :
  nth_error (heap w) self = Some o ->
  py_len (get_currency_list o) = Raise e ->
  get_currencies self w = (Raise e, w).
Proof.
  intros Ho Hn. unfold get_currencies, bind, this, lift. rewrite Ho, Hn. reflexivity.
Qed.

Lemma get_currencies_unknown (self : nat) (w : world) :
  nth_error (heap w) self = None ->
  get_currencies self w = (Raise AttributeError, w).
Proof.
  intros Ho. unfold get_currencies, bind, this. rewrite Ho. reflexivity.
Qed.

(** A call that returns a list that is not empty leaves it in the cache. *)
Lemma get_currencies_caches (self : nat) (w w' : world) (v : value) :
  get_currencies self w = (Ok v, w') -> nonempty v ->
  cache_of self w' = Some v.
Proof.
  intros H Hv.
  destruct (nth_error (heap w) self) as [o|] eqn:Ho.
  2:{ rewrite (get_currencies_unknown _ _ Ho) in H. discriminate. }
  destruct (py_len (get_currency_list o)) as [[|n]|e] eqn:Hn.
  - pose proof (get_currencies_cold _ _ _ Ho Hn) as Hc. cbv zeta in Hc.
    rewrite Hc in H. clear Hc.
    destruct (result_of _) as [r|e]; [|discriminate].
    injection H as Hr Hw. subst r w'. unfold cache_of. cbn [heap].
    rewrite (nth_error_list_set _ _ _ _ Ho). reflexivity.
  - assert (Hc : cache_of self w = Some (get_currency_list o))
      by (unfold cache_of; rewrite Ho; reflexivity).
    rewrite (get_currencies_warm _ _ _ Hc (ex_intro _ n Hn)) in H.
    injection H as Hr Hw. subst. exact Hc.
  - rewrite (get_currencies_unsized _ _ _ _ Ho Hn) in H. discriminate.
Qed.

(** ** Running a [bind] *)

Lemma bind_ok {A B : Type} (m : M A) (k : A -> M B) (w w' : world) (a : A) :
  m w = (Ok a, w') -> bind m k w = k a w'.
Proof. intros H. unfold bind. rewrite H. reflexivity. Qed.

Lemma bind_raise {A B : Type} (m : M A) (k : A -> M B) (w w' : world) (e : exn) :
  m w = (Raise e, w') -> bind m k w = (Raise e, w').
Proof. intros H. unfold bind. rewrite H. reflexivity. Qed.

(** ** Which requests a method can post *)

Lemma posts_only_ret {A : Type} (c : list string) (a : A) : posts_only c (ret a).
Proof. intros w. exists []. split; [symmetry; apply app_nil_r | constructor]. Qed.

Lemma posts_only_raise {A : Type} (c : list string) (e : exn) :
  posts_only c (@raise _ A e).
Proof. intros w. exists []. split; [symmetry; apply app_nil_r | constructor]. Qed.

Lemma posts_only_lift {A : Type} (c : list string) (o : outcome A) :
  posts_only c (lift o).
Proof. intros w. exists []. split; [symmetry; apply app_nil_r | constructor]. Qed.

Lemma posts_only_bind {A B : Type} (c : list string) (m : M A) (k : A -> M B) :
  posts_only c m -> (forall a, posts_only c (k a)) -> posts_only c (bind m k).
Proof.
  intros Hm Hk w. destruct (Hm w) as [l1 [E1 F1]].
  unfold bind. destruct (m w) as [[a|e] w'] eqn:E; cbn [snd] in E1.
  - destruct (Hk a w') as [l2 [E2 F2]]. exists (l1 ++ l2). split.
    + rewrite E2, E1. symmetry. apply app_assoc.
    + apply Forall_app. split; assumption.
  - exists l1. split; assumption.
Qed.

Lemma posts_only_incl {A : Type} (c c' : list string) (m : M A) :
  incl c c' -> posts_only c m -> posts_only c' m.
Proof.
  intros Hi Hm w. destruct (Hm w) as [l [E F]]. exists l. split; [exact E|].
  eapply Forall_impl; [|exact F].
  intros q [x [Hx Hq]]. exists x. split; [apply Hi; exact Hx | exact Hq].
Qed.

Lemma posts_only_this (c : list string) (self : nat) : posts_only c (this self).
Proof.
  intros w. exists []. unfold this.
  destruct (nth_error (heap w) self); (split; [symmetry; apply app_nil_r | constructor]).
Qed.

Lemma posts_only_set_currency_list (c : list string) (self : nat) (v : value) :
  posts_only c (set_currency_list self v).
Proof.
  intros w. exists []. unfold set_currency_list.
  destruct (nth_error (heap w) self); (split; [symmetry; apply app_nil_r | constructor]).
Qed.

Lemma posts_only__request (self : nat) (command : string) (params : value) :
  posts_only [command] (_request self command params).
Proof.
  intros w. destruct (nth_error (heap w) self) as [o|] eqn:Ho.
  - rewrite (_request_eq _ _ _ _ _ Ho). eexists. split; [reflexivity|].
    constructor; [|constructor]. exists command. split; [left; reflexivity|].
    apply method_of_request_of.
  - rewrite (_request_unknown _ _ _ _ Ho). exists [].
    split; [symmetry; apply app_nil_r | constructor].
Qed.

Lemma posts_only_get_currencies (self : nat) :
  posts_only ["getCurrencies"] (get_currencies self).
Proof.
  unfold get_currencies.
  apply posts_only_bind; [apply posts_only_this|]. intros o.
  apply posts_only_bind; [apply posts_only_lift|]. intros n.
  apply posts_only_bind.
  - destruct (n =? 0)%nat; [|apply posts_only_ret].
    apply posts_only_bind; [apply posts_only__request|]. intros r.
    apply posts_only_set_currency_list.
  - intros _. apply posts_only_bind; [apply posts_only_this|]. intros o'.
    apply posts_only_ret.
Qed.

Lemma posts_only_get_min_amount (self : nat) (f t : string) :
  posts_only lookups (get_min_amount self f t).
Proof.
  assert (Hc : posts_only lookups (get_currencies self)).
  { eapply posts_only_incl; [|apply posts_only_get_currencies].
    intros x [Hx|[]]. left. exact Hx. }
  unfold get_min_amount.
  apply posts_only_bind; [exact Hc|]. intros l.
  apply posts_only_bind; [apply posts_only_lift|]. intros a.
  apply posts_only_bind.
  - destruct a; [|apply posts_only_ret].
    apply posts_only_bind; [exact Hc|]. intros l'. apply posts_only_lift.
  - intros [|]; [|apply posts_only_raise].
    apply posts_only_bind.
    + eapply posts_only_incl; [|apply posts_only__request].
      intros x [Hx|[]]. right. left. exact Hx.
    + intros r. apply posts_only_bind; [apply posts_only_lift|]. intros x.
      apply posts_only_ret.
Qed.

Lemma posts_only_check_pairs (self : nat) (amount : float) (pairs : list (string * string)) :
  posts_only lookups (check_pairs self amount pairs).
Proof.
  assert (Hc : posts_only lookups (get_currencies self)).
  { eapply posts_only_incl; [|apply posts_only_get_currencies].
    intros x [Hx|[]]. left. exact Hx. }
  induction pairs as [|[f t] pairs IH]; cbn [check_pairs].
  - apply posts_only_ret.
  - apply posts_only_bind; [exact Hc|]. intros l.
    apply posts_only_bind; [apply posts_only_lift|]. intros a.
    apply posts_only_bind; [exact Hc|]. intros l'.
    apply posts_only_bind; [apply posts_only_lift|]. intros b.
    apply posts_only_bind; [|intros _; exact IH].
    destruct (a && b); [|apply posts_only_raise].
    apply posts_only_bind; [apply posts_only_get_min_amount|]. intros x.
    destruct (float_lt amount x); [apply posts_only_raise | apply posts_only_ret].
Qed.

Lemma posts_only_exchange_params (self : nat) (fc tc amount : value) :
  posts_only lookups (exchange_params self fc tc amount).
Proof.
  unfold exchange_params.
  apply posts_only_bind; [apply posts_only_lift|]. intros fs.
  apply posts_only_bind; [apply posts_only_lift|]. intros ts.
  apply posts_only_bind; [apply posts_only_lift|]. intros x.
  apply posts_only_bind; [apply posts_only_check_pairs|]. intros _.
  destruct (negb _); [apply posts_only_raise|].
  destruct (_ =? 1)%nat; apply posts_only_ret.
Qed.

Lemma lookups_not_exchange (q : request float) :
  calls lookups q -> method_of q <> Some (VStr "getExchangeAmount").
Proof.
  intros [c [Hc Hq]] H. rewrite Hq in H.
  destruct Hc as [Hc|[Hc|[]]]; subst c; discriminate.
Qed.

(** A method that raises in [exchange_params] raises in
    [get_exchange_amount], in the same world. *)
Lemma get_exchange_amount_raise (self : nat) (fc tc amount : value) (w w' : world) (e : exn) :
  exchange_params self fc tc amount w = (Raise e, w') ->
  get_exchange_amount self fc tc amount w = (Raise e, w').
Proof. intros H. unfold get_exchange_amount. apply bind_raise. exact H. Qed.

Lemma get_exchange_amount_raise_dispatched
    (self : nat) (fc tc amount : value) (w w' : world) (e : exn) :
  exchange_params self fc tc amount w = (Raise e, w') ->
  Forall (calls lookups) (dispatched (get_exchange_amount self fc tc amount) w).
Proof.
  intros H. destruct (posts_only_exchange_params self fc tc amount w) as [l [E F]].
  rewrite (dispatched_eq _ w l); [exact F|].
  rewrite (get_exchange_amount_raise _ _ _ _ _ _ _ H).
  rewrite H in E. exact E.
Qed.

(** ** The cached list, once populated *)

Lemma get_currencies_again (self : nat) (w w' : world) (v : value) :
  get_currencies self w = (Ok v, w') -> nonempty v ->
  get_currencies self w' = (Ok v, w').
Proof.
  intros H Hv. apply get_currencies_warm; [|exact Hv].
  eapply get_currencies_caches; eassumption.
Qed.

Lemma existsb_nonempty (x : string) (L : list value) :
  existsb (str_eq x) L = true -> nonempty (VList L).
Proof.
  destruct L as [|e L]; [discriminate|]. intros _. exists (List.length L). reflexivity.
Qed.

(** [get_min_amount] when the cached list is a list that is not empty. *)
Lemma get_min_amount_warm (self : nat) (f t : string) (w : world) (o : instance) (L : list value) :
  nth_error (heap w) self = Some o ->
  get_currency_list o = VList L ->
  nonempty (VList L) ->
  let q := request_of o w "getMinAmount"
             (VDict [("from", VStr (lower f)); ("to", VStr (lower t))]) in
  get_min_amount self f t w =
    if existsb (str_eq (lower f)) L && existsb (str_eq (lower t)) L
    then (match result_of (post (sent w) q) with
          | Ok r => match py_float r with
                    | Ok x => Ok (round8 x)
                    | Raise e => Raise e
                    end
          | Raise e => Raise e
          end, after_request q w)
    else (Raise invalid_currency, w).
Proof.
  intros Ho HL Hne q.
  assert (Hc : get_currencies self w = (Ok (VList L), w)).
  { apply get_currencies_warm; [|exact Hne]. unfold cache_of. rewrite Ho, <- HL. reflexivity. }
  unfold get_min_amount.
  rewrite (bind_ok _ _ _ _ _ Hc).
  unfold lift at 1. unfold bind at 1. cbn [py_in].
  destruct (existsb (str_eq (lower f)) L) eqn:Ef; cbn [andb].
  - rewrite (bind_ok _ _ w w (existsb (str_eq (lower t)) L)).
    2:{ rewrite (bind_ok _ _ _ _ _ Hc). reflexivity. }
    destruct (existsb (str_eq (lower t)) L) eqn:Et.
    + unfold bind at 1. rewrite (_request_eq _ _ _ _ _ Ho). fold q.
      destruct (result_of (post (sent w) q)) as [r|e]; [|reflexivity].
      unfold bind, lift, ret. destruct (py_float r); reflexivity.
    + reflexivity.
  - unfold bind, ret, raise. reflexivity.
Qed.

(** ** The validation loop *)

(** One turn of the loop on a valid pair, with the list cached. *)
Lemma check_pairs_step (self : nat) (amount : float) (minimum : string -> string -> float)
    (L : list value) (f t : string) (pairs : list (string * string))
    (w : world) (o : instance) :
  nth_error (heap w) self = Some o ->
  get_currency_list o = VList L ->
  valid_pair minimum L (f, t) ->
  exists w',
    nth_error (heap w') self = Some o /\
    check_pairs self amount ((f, t) :: pairs) w =
      if float_lt amount (minimum f t)
      then (Raise (below_minimum (minimum f t) f), w')
      else check_pairs self amount pairs w'.
Proof.
  intros Ho HL [[Hf Hlf] [[Ht Hlt] Hq]]. cbn [fst snd] in *.
  pose proof (existsb_nonempty _ _ Hf) as Hne.
  assert (Hc : get_currencies self w = (Ok (VList L), w)).
  { apply get_currencies_warm; [|exact Hne]. unfold cache_of. rewrite Ho, <- HL. reflexivity. }
  set (q := request_of o w "getMinAmount"
              (VDict [("from", VStr (lower f)); ("to", VStr (lower t))])).
  destruct (Hq (sent w) q eq_refl) as [r [x [Hr [Hx Hm]]]].
  assert (Hmin : get_min_amount self f t w = (Ok (minimum f t), after_request q w)).
  { pose proof (get_min_amount_warm self f t w o L Ho HL Hne) as E. cbv zeta in E.
    rewrite Hlf, Hlt in E. fold q in E. rewrite Hr, Hx, Hm in E. exact E. }
  exists (after_request q w). split; [exact Ho|].
  cbn [check_pairs].
  rewrite (bind_ok _ _ _ _ _ Hc).
  unfold lift at 1. unfold bind at 1. cbn [py_in]. rewrite Hf.
  rewrite (bind_ok _ _ _ _ _ Hc).
  unfold lift at 1. unfold bind at 1. cbn [py_in]. rewrite Ht. cbn [andb].
  unfold bind at 1. rewrite (bind_ok _ _ _ _ _ Hmin).
  destruct (float_lt amount (minimum f t)); reflexivity.
Qed.

(** The loop on valid pairs: it raises at the first pair whose minimum is
    above the amount, and returns when there is none. *)
Lemma check_pairs_valid (self : nat) (amount : float) (minimum : string -> string -> float)
    (L : list value) (o : instance) (pairs : list (string * string)) :
  Forall (valid_pair minimum L) pairs ->
  forall w : world,
    nth_error (heap w) self = Some o ->
    get_currency_list o = VList L ->
    exists w',
      match find (below minimum amount) pairs with
      | Some (f, t) =>
          check_pairs self amount pairs w = (Raise (below_minimum (minimum f t) f), w')
      | None => check_pairs self amount pairs w = (Ok tt, w')
      end.
Proof.
  induction 1 as [|[f t] pairs Hv Hvs IH]; intros w Ho HL.
  - exists w. reflexivity.
  - destruct (check_pairs_step self amount minimum L f t pairs w o Ho HL Hv)
      as [w1 [Ho1 E]].
    cbn [find]. unfold below at 1. cbn [fst snd].
    destruct (float_lt amount (minimum f t)) eqn:Hlt.
    + exists w1. exact E.
    + destruct (IH w1 Ho1 HL) as [w' H']. exists w'. rewrite E. exact H'.
Qed.

(** The first call of [get_currencies] in the loop may populate the cache;
    the loop then goes on as if the cache had been populated before. *)
Lemma check_pairs_populated (self : nat) (amount : float) (pairs : list (string * string))
    (w w0 : world) (v : value) :
  get_currencies self w = (Ok v, w0) -> nonempty v -> pairs <> [] ->
  check_pairs self amount pairs w = check_pairs self amount pairs w0.
Proof.
  intros H Hv Hp. destruct pairs as [|[f t] pairs]; [congruence|].
  cbn [check_pairs].
  rewrite (bind_ok _ _ _ _ _ H).
  rewrite (bind_ok _ _ _ _ _ (get_currencies_again _ _ _ _ H Hv)).
  reflexivity.
Qed.

Lemma get_min_amount_populated (self : nat) (f t : string) (w w0 : world) (v : value) :
  get_currencies self w = (Ok v, w0) -> nonempty v ->
  get_min_amount self f t w = get_min_amount self f t w0.
Proof.
  intros H Hv. unfold get_min_amount.
  rewrite (bind_ok _ _ _ _ _ H).
  rewrite (bind_ok _ _ _ _ _ (get_currencies_again _ _ _ _ H Hv)).
  reflexivity.
Qed.

Lemma cache_of_instance (self : nat) (w : world) (v : value) :
  cache_of self w = Some v ->
  exists o, nth_error (heap w) self = Some o /\ get_currency_list o = v.
Proof.
  unfold cache_of. destruct (nth_error (heap w) self) as [o|]; [|discriminate].
  intros H. injection H as H. exists o. split; [reflexivity | exact H].
Qed.

End Requests.

(** * Properties of the methods *)

Section Properties.

Context {rt : Runtime}.

Local Abbreviation value := (pyval float).
Local Abbreviation instance := (instance float).
Local Abbreviation world := (world float).

Local Open Scope list_scope.

Lemma again_fixed {A : Type} (n : nat) (m : M A) (w : world) :
  snd (m w) = w -> again n m w = w.
Proof.
  intros H. induction n as [|n IH]; simpl; [reflexivity|]. rewrite H. exact IH.
Qed.

(** ** [_request] *)

(** C7. [_request] serializes the envelope once; the string it signs (encoded
    in UTF-8, under the secret of the instance) is the string it posts as the
    body, and the [sign] header posted with it is the digest of exactly that
    body.  Two invocations with the same secret, method and params, in any two
    worlds, post the same body under the same signature. *)
Theorem request_signs_the_posted_body
    (self1 self2 : nat) (command : string) (params : value)
    (w1 w2 : world) (o1 o2 : instance) :
  nth_error (heap w1) self1 = Some o1 ->
  nth_error (heap w2) self2 = Some o2 ->
  _secret o1 = _secret o2 ->
  exists q1 q2,
    dispatched (_request self1 command params) w1 = [q1] /\
    dispatched (_request self2 command params) w2 = [q2] /\
    data q1 = json_dumps (rpc_envelope command params) /\
    dict_get "sign" (headers q1)
      = Some (hmac_sha512_hexdigest (_secret o1) (encode_utf8 (data q1))) /\
    dict_get "sign" (headers q2)
      = Some (hmac_sha512_hexdigest (_secret o2) (encode_utf8 (data q2))) /\
    data q1 = data q2 /\
    dict_get "sign" (headers q1) = dict_get "sign" (headers q2).
Proof.
  intros H1 H2 Hs.
  exists (request_of o1 w1 command params), (request_of o2 w2 command params).
  assert (Hset : forall (s : string) (h : list (string * string)),
             dict_get "sign" (dict_set "sign" s h) = Some s)
    by (intros s h; apply dict_get_set).
  repeat split.
  - apply _request_dispatched; assumption.
  - apply _request_dispatched; assumption.
  - unfold request_of. cbn [headers data]. apply Hset.
  - unfold request_of. cbn [headers data]. apply Hset.
  - unfold request_of. cbn [headers data]. rewrite !Hset, Hs. reflexivity.
Qed.

(** ** [get_currencies] *)

(** C8. [get_currencies] posts nothing, or it posts the one request
    [getCurrencies] and the cached list was empty.  Once a call has returned a
    list that is not empty, every later call returns that list and leaves the
    world, and so the requests sent, as they were. *)
Theorem get_currencies_populates_once (self : nat) (w : world) :
  (dispatched (get_currencies self) w = [] \/
   exists o,
     nth_error (heap w) self = Some o /\
     py_len (get_currency_list o) = Ok O /\
     dispatched (get_currencies self) w = [request_of o w "getCurrencies" VNone]) /\
  (forall (v : value) (w' : world),
     get_currencies self w = (Ok v, w') -> nonempty v ->
     forall n : nat,
       get_currencies self (again n (get_currencies self) w') = (Ok v, w') /\
       dispatched (get_currencies self) (again n (get_currencies self) w') = []).
Proof.
  split.
  - destruct (nth_error (heap w) self) as [o|] eqn:Ho.
    2:{ left. apply dispatched_nil. rewrite (get_currencies_unknown _ _ Ho). reflexivity. }
    destruct (py_len (get_currency_list o)) as [[|n]|e] eqn:Hn.
    + right. exists o. repeat split; auto.
      apply dispatched_eq.
      pose proof (get_currencies_cold _ _ _ Ho Hn) as Hc. cbv zeta in Hc.
      rewrite Hc. destruct (result_of _); reflexivity.
    + left. apply dispatched_nil.
      rewrite (get_currencies_warm self w (get_currency_list o)).
      * reflexivity.
      * unfold cache_of. rewrite Ho. reflexivity.
      * exists n. exact Hn.
    + left. apply dispatched_nil.
      rewrite (get_currencies_unsized _ _ _ _ Ho Hn). reflexivity.
  - intros v w' H Hv n.
    pose proof (get_currencies_caches _ _ _ _ H Hv) as Hc.
    pose proof (get_currencies_warm _ _ _ Hc Hv) as Hw.
    assert (Hfix : again n (get_currencies self) w' = w')
      by (apply again_fixed; rewrite Hw; reflexivity).
    rewrite Hfix. split; [exact Hw|].
    apply dispatched_nil. rewrite Hw. reflexivity.
Qed.

(** ** [create_transaction] *)

(** C1. With [refund_address] left at [None], or with [refund_extra_id] left
    at [None] beside a string [refund_address], [len(None)] is evaluated while
    the argument of [all] is built: the call raises [TypeError] and posts
    nothing. *)
Theorem create_transaction_refund_none_raises
    (self : nat) (from_currency to_currency destination_address amount extra_id : value)
    (w : world) :
  (forall refund_extra_id : value,
     create_transaction self from_currency to_currency destination_address amount
       extra_id VNone refund_extra_id w = (Raise TypeError, w) /\
     dispatched
       (create_transaction self from_currency to_currency destination_address amount
          extra_id VNone refund_extra_id) w = []) /\
  (forall s : string,
     create_transaction self from_currency to_currency destination_address amount
       extra_id (VStr s) VNone w = (Raise TypeError, w) /\
     dispatched
       (create_transaction self from_currency to_currency destination_address amount
          extra_id (VStr s) VNone) w = []).
Proof.
  split.
  - intros refund_extra_id.
    assert (E : create_transaction self from_currency to_currency destination_address
                  amount extra_id VNone refund_extra_id w = (Raise TypeError, w))
      by reflexivity.
    split; [exact E|]. apply dispatched_nil. rewrite E. reflexivity.
  - intros s.
    assert (E : create_transaction self from_currency to_currency destination_address
                  amount extra_id (VStr s) VNone w = (Raise TypeError, w))
      by reflexivity.
    split; [exact E|]. apply dispatched_nil. rewrite E. reflexivity.
Qed.

(** The other half of C1, which the code does meet: a refund argument given as
    a string that is not empty is posted verbatim under its key, and an empty
    string is left out. *)
Lemma create_transaction_refund_strings
    (self : nat) (from_currency to_currency destination_address amount extra_id : value)
    (ra re : string) (w : world) (o : instance) :
  nth_error (heap w) self = Some o ->
  exists q d,
    dispatched
      (create_transaction self from_currency to_currency destination_address amount
         extra_id (VStr ra) (VStr re)) w = [q] /\
    method_of q = Some (VStr "createTransaction") /\
    params_of q = Some (VDict d) /\
    dict_get "refundAddress" d
      = (if (0 <? String.length ra)%nat then Some (VStr ra) else None) /\
    dict_get "refundExtraId" d
      = (if (0 <? String.length re)%nat then Some (VStr re) else None).
Proof.
  intros Ho.
  unfold create_transaction.
  set (p0 := [("from", from_currency); ("to", to_currency);
              ("address", destination_address);
              ("extraId", if is_none extra_id then VStr "null" else extra_id);
              ("amount", amount)]).
  set (p1 := if (true && true && (0 <? String.length ra)%nat)%bool
             then dict_set "refundAddress" (VStr ra) p0 else p0).
  set (p2 := if (true && true && (0 <? String.length re)%nat)%bool
             then dict_set "refundExtraId" (VStr re) p1 else p1).
  exists (request_of o w "createTransaction" (VDict p2)), p2.
  split.
  { apply dispatched_eq. unfold bind, lift, ret. cbn [nonempty_str py_len is_none is_str negb].
    fold p0. fold p1. fold p2.
    rewrite (_request_eq _ _ _ _ _ Ho).
    destruct (result_of _); reflexivity. }
  split; [reflexivity|]. split; [reflexivity|].
  unfold p2, p1, p0.
  destruct (0 <? String.length ra)%nat, (0 <? String.length re)%nat; split; reflexivity.
Qed.


(** ** [get_exchange_amount] *)

(** C6. A bare string is put in a one-element list before anything else is
    done, so the call on two strings and the call on the two one-element lists
    are the same computation: same outcome, same world, same requests. *)
Theorem get_exchange_amount_promotes_strings
    (self : nat) (f t : string) (amount : value) (w : world) :
  get_exchange_amount self (VStr f) (VStr t) amount w
  = get_exchange_amount self (VList [VStr f]) (VList [VStr t]) amount w /\
  dispatched (get_exchange_amount self (VStr f) (VStr t) amount) w
  = dispatched (get_exchange_amount self (VList [VStr f]) (VList [VStr t]) amount) w /\
  currency_codes (VStr f) = Ok [lower f] /\
  currency_codes (VList [VStr f]) = Ok [lower f].
Proof.
  repeat split; reflexivity.
Qed.

(** C10. [len(result)] comes first: when the request went through and its
    result is [None] (the [result] field was absent) or a number, the call
    raises [TypeError], with the [getExchangeAmount] request already sent. *)
Theorem get_exchange_amount_sizeless_result
    (self : nat) (from_currency to_currency amount params v : value) (w w1 w2 : world) :
  exchange_params self from_currency to_currency amount w = (Ok params, w1) ->
  _request self "getExchangeAmount" params w1 = (Ok v, w2) ->
  sizeless v = true ->
  get_exchange_amount self from_currency to_currency amount w = (Raise TypeError, w2) /\
  exists q, sent w2 = sent w1 ++ [q] /\ method_of q = Some (VStr "getExchangeAmount").
Proof.
  intros Hp Hr Hv. split.
  - unfold get_exchange_amount, bind. rewrite Hp, Hr. unfold lift.
    destruct v; try discriminate; reflexivity.
  - destruct (nth_error (heap w1) self) as [o|] eqn:Ho.
    + rewrite (_request_eq _ _ _ _ _ Ho) in Hr. injection Hr as _ Hw. subst w2.
      eexists. split; reflexivity.
    + rewrite (_request_unknown _ _ _ _ Ho) in Hr. discriminate.
Qed.

(** An answer without a [result] field gives [None]. *)
Lemma json_result_absent (d : list (string * value)) :
  dict_get "result" d = None -> json_result (Some (VDict d)) = Ok VNone.
Proof. intros H. unfold json_result. rewrite H. reflexivity. Qed.

(** ** [get_min_amount] *)

(** C4. Let [L] be the list [get_currencies] returns.  [get_min_amount]
    lower-cases both codes.  When both are in [L] it posts one request,
    [getMinAmount] with the params [{from, to}] of the lower-cased codes, and
    returns [round(float(result), 8)] of the result (or raises what the
    request or [float] raises).  When one of them is not in [L] it raises the
    invalid-currency error and posts no [getMinAmount] request. *)
Theorem get_min_amount_spec (self : nat) (f t : string) (w w0 : world) (L : list value) :
  get_currencies self w = (Ok (VList L), w0) ->
  if existsb (str_eq (lower f)) L && existsb (str_eq (lower t)) L
  then
    exists o,
      nth_error (heap w0) self = Some o /\
      let params := VDict [("from", VStr (lower f)); ("to", VStr (lower t))] in
      let q := request_of o w0 "getMinAmount" params in
      method_of q = Some (VStr "getMinAmount") /\
      params_of q = Some params /\
      get_min_amount self f t w =
        (match result_of (post (sent w0) q) with
         | Ok r => match py_float r with
                   | Ok x => Ok (round8 x)
                   | Raise e => Raise e
                   end
         | Raise e => Raise e
         end, after_request q w0)
  else
    get_min_amount self f t w = (Raise invalid_currency, w0) /\
    Forall (fun q => method_of q <> Some (VStr "getMinAmount"))
      (dispatched (get_min_amount self f t) w).
Proof.
  intros H.
  assert (Hno : get_min_amount self f t w = (Raise invalid_currency, w0) ->
                Forall (fun q => method_of q <> Some (VStr "getMinAmount"))
                  (dispatched (get_min_amount self f t) w)).
  { intros E. destruct (posts_only_get_currencies self w) as [l [El Fl]].
    rewrite H in El. cbn [snd] in El.
    rewrite (dispatched_eq _ w l) by (rewrite E; exact El).
    eapply Forall_impl; [|exact Fl].
    intros q [c [[Hc|[]] Hq]] Hq'. subst c. rewrite Hq in Hq'. discriminate. }
  destruct L as [|e L].
  - cbn [existsb andb].
    assert (E : get_min_amount self f t w = (Raise invalid_currency, w0)).
    { unfold get_min_amount. rewrite (bind_ok _ _ _ _ _ H). reflexivity. }
    split; [exact E | exact (Hno E)].
  - assert (Hne : nonempty (VList (e :: L))) by (exists (List.length L); reflexivity).
    destruct (cache_of_instance _ _ _ (get_currencies_caches _ _ _ _ H Hne))
      as [o [Ho HL]].
    pose proof (get_min_amount_warm self f t w0 o (e :: L) Ho HL Hne) as E.
    cbv zeta in E. rewrite <- (get_min_amount_populated _ _ _ _ _ _ H Hne) in E.
    destruct (existsb (str_eq (lower f)) (e :: L) && existsb (str_eq (lower t)) (e :: L)).
    + exists o. split; [exact Ho|]. cbv zeta.
      split; [reflexivity|]. split; [reflexivity|]. exact E.
    + split; [exact E | exact (Hno E)].
Qed.

(** ** [get_exchange_amount]: validation before the request *)

Lemma exchange_params_checked (self : nat) (fc tc a : value) (w : world)
    (fs ts : list string) (amount : float) :
  currency_codes fc = Ok fs ->
  currency_codes tc = Ok ts ->
  py_float (VStr (py_str a)) = Ok amount ->
  exchange_params self fc tc a w =
    match check_pairs self amount (combine fs ts) w with
    | (Ok _, w') =>
        if negb (List.length fs =? List.length ts)%nat then (Raise shape_mismatch, w')
        else if (List.length fs =? 1)%nat then
          (Ok (quote amount (nth 0 fs EmptyString, nth 0 ts EmptyString)), w')
        else (Ok (VList (map (quote amount) (combine fs ts))), w')
    | (Raise e, w') => (Raise e, w')
    end.
Proof.
  intros Hf Ht Ha. unfold exchange_params.
  unfold lift at 1. unfold bind at 1. rewrite Hf.
  unfold lift at 1. unfold bind at 1. rewrite Ht.
  unfold lift at 1. unfold bind at 1. rewrite Ha.
  unfold bind. destruct (check_pairs self amount (combine fs ts) w) as [[u|e] w']; [|reflexivity].
  destruct (negb _); [reflexivity|]. destruct (_ =? 1)%nat; reflexivity.
Qed.

(** C3. Let [L] be the list [get_currencies] returns, every normalized code
    be valid (it is in [L], and so is its lower-case form, which
    [get_min_amount] tests), and [minimum f t] be the minimum
    [get_min_amount] computes for each pair.  When the coerced amount is below
    the minimum of some pair, the call raises the below-minimum error of such
    a pair, which names that minimum and the upper-cased from-code, and no
    [getExchangeAmount] request is posted. *)
Theorem get_exchange_amount_below_minimum
    (self : nat) (fc tc a : value) (w w0 : world) (fs ts : list string)
    (amount : float) (L : list value) (minimum : string -> string -> float) :
  currency_codes fc = Ok fs ->
  currency_codes tc = Ok ts ->
  py_float (VStr (py_str a)) = Ok amount ->
  get_currencies self w = (Ok (VList L), w0) ->
  Forall (valid_code L) fs ->
  Forall (valid_code L) ts ->
  (forall f t, In (f, t) (combine fs ts) -> quotes_minimum minimum f t) ->
  Exists (fun ft => float_lt amount (minimum (fst ft) (snd ft)) = true) (combine fs ts) ->
  exists f t,
    In (f, t) (combine fs ts) /\
    float_lt amount (minimum f t) = true /\
    fst (get_exchange_amount self fc tc a w) = Raise (below_minimum (minimum f t) f) /\
    Forall (fun q => method_of q <> Some (VStr "getExchangeAmount"))
      (dispatched (get_exchange_amount self fc tc a) w).
Proof.
  intros Hf Ht Ha Hc Hfs Hts Hq Hex.
  set (pairs := combine fs ts) in *.
  assert (Hvalid : Forall (valid_pair minimum L) pairs).
  { apply Forall_forall. intros [f t] Hin.
    pose proof (in_combine_l _ _ _ _ Hin) as Hinf.
    pose proof (in_combine_r _ _ _ _ Hin) as Hint.
    rewrite Forall_forall in Hfs, Hts.
    split; [exact (Hfs _ Hinf)|]. split; [exact (Hts _ Hint)|].
    apply Hq. exact Hin. }
  assert (Hfind : exists f t, find (below minimum amount) pairs = Some (f, t)).
  { destruct (find (below minimum amount) pairs) as [[f t]|] eqn:E; [eauto|].
    apply Exists_exists in Hex. destruct Hex as [ft [Hin Hlt]].
    pose proof (find_none _ _ E ft Hin) as Hn. unfold below in Hn. congruence. }
  destruct Hfind as [f [t Hfind]].
  destruct (find_some _ _ Hfind) as [Hin Hlt]. unfold below in Hlt. cbn [fst snd] in Hlt.
  assert (Hp : pairs <> []) by (intros E; rewrite E in Hin; destruct Hin).
  assert (Hne : nonempty (VList L)).
  { rewrite Forall_forall in Hvalid. destruct (Hvalid _ Hin) as [[Hm _] _].
    exact (existsb_nonempty _ _ Hm). }
  destruct (cache_of_instance _ _ _ (get_currencies_caches _ _ _ _ Hc Hne)) as [o [Ho HL]].
  destruct (check_pairs_valid self amount minimum L o pairs Hvalid w0 Ho HL) as [w' Hck].
  rewrite Hfind in Hck.
  rewrite <- (check_pairs_populated _ _ _ _ _ _ Hc Hne Hp) in Hck.
  assert (E : exchange_params self fc tc a w = (Raise (below_minimum (minimum f t) f), w')).
  { rewrite (exchange_params_checked _ _ _ _ _ _ _ _ Hf Ht Ha). fold pairs.
    rewrite Hck. reflexivity. }
  exists f, t. split; [exact Hin|]. split; [exact Hlt|]. split.
  - rewrite (get_exchange_amount_raise _ _ _ _ _ _ _ E). reflexivity.
  - eapply Forall_impl; [|exact (get_exchange_amount_raise_dispatched _ _ _ _ _ _ _ E)].
    intros q. apply lookups_not_exchange.
Qed.

(** C2, as the code has it.  When the two normalized sequences differ in
    length the call raises and never posts [getExchangeAmount]; what it posts
    are the lookups of the validation loop, which runs first over the zipped
    pairs.  The error is the shape mismatch when the amount coerces to a float
    and the loop accepts every zipped pair. *)
Theorem get_exchange_amount_shape_mismatch
    (self : nat) (fc tc a : value) (w : world) (fs ts : list string) :
  currency_codes fc = Ok fs ->
  currency_codes tc = Ok ts ->
  List.length fs <> List.length ts ->
  (exists e w', get_exchange_amount self fc tc a w = (Raise e, w')) /\
  Forall (fun q => method_of q <> Some (VStr "getExchangeAmount"))
    (dispatched (get_exchange_amount self fc tc a) w) /\
  (forall (amount : float) (w1 : world),
     py_float (VStr (py_str a)) = Ok amount ->
     check_pairs self amount (combine fs ts) w = (Ok tt, w1) ->
     get_exchange_amount self fc tc a w = (Raise shape_mismatch, w1)).
Proof.
  intros Hf Ht Hlen.
  assert (Hneq : negb (List.length fs =? List.length ts)%nat = true).
  { apply negb_true_iff. apply Nat.eqb_neq. exact Hlen. }
  assert (Hr : exists e w', exchange_params self fc tc a w = (Raise e, w')).
  { destruct (py_float (VStr (py_str a))) as [amount|e] eqn:Ha.
    - rewrite (exchange_params_checked _ _ _ _ _ _ _ _ Hf Ht Ha).
      destruct (check_pairs self amount (combine fs ts) w) as [[u|e] w'].
      + rewrite Hneq. eauto.
      + eauto.
    - exists e, w. unfold exchange_params, bind, lift. rewrite Hf, Ht, Ha. reflexivity. }
  destruct Hr as [e [w' E]].
  split; [|split].
  - exists e, w'. apply get_exchange_amount_raise. exact E.
  - eapply Forall_impl; [|exact (get_exchange_amount_raise_dispatched _ _ _ _ _ _ _ E)].
    intros q. apply lookups_not_exchange.
  - intros amount w1 Ha Hck. apply get_exchange_amount_raise.
    rewrite (exchange_params_checked _ _ _ _ _ _ _ _ Hf Ht Ha), Hck, Hneq. reflexivity.
Qed.

(** ** Two clients *)

(** C9, on the code.  [__init__] writes the key in the [_headers] dictionary
    of the class.  After [ChangellyPy(key1, secret1)] and then
    [ChangellyPy(key2, secret2)], the [api-key] header is [key2] for both
    clients: a request of the first client (instance 0) is posted with
    [key2], signed with [secret1]. *)
Theorem second_client_overwrites_api_key (key1 secret1 key2 secret2 : string) :
  let w1 := snd (__init__ key1 secret1 initial_world) in
  let w2 := snd (__init__ key2 secret2 w1) in
  dict_get "api-key" (_headers w1) = Some key1 /\
  dict_get "api-key" (_headers w2) = Some key2 /\
  forall (command : string) (params : value),
  exists q,
    dispatched (_request 0 command params) w2 = [q] /\
    dict_get "api-key" (headers q) = Some key2 /\
    dict_get "sign" (headers q)
      = Some (hmac_sha512_hexdigest (encode_utf8 secret1) (encode_utf8 (data q))).
Proof.
  cbv zeta. split; [reflexivity|]. split; [reflexivity|].
  intros command params.
  set (w2 := snd (__init__ key2 secret2 (snd (__init__ key1 secret1 initial_world)))).
  assert (Ho : nth_error (heap w2) 0 = Some (mkInstance (encode_utf8 secret1) None))
    by reflexivity.
  exists (request_of (mkInstance (encode_utf8 secret1) None) w2 command params).
  split; [apply _request_dispatched; exact Ho|].
  split; reflexivity.
Qed.

(** What is per instance: the cached list.  A call of [get_currencies] on one
    instance leaves the cached list of every other instance as it was, and
    so does the construction of a new client. *)
Lemma get_currencies_other_instance (self other : nat) (w : world) :
  self <> other ->
  cache_of other (snd (get_currencies self w)) = cache_of other w.
Proof.
  intros Hd.
  destruct (nth_error (heap w) self) as [o|] eqn:Ho.
  2:{ rewrite (get_currencies_unknown _ _ Ho). reflexivity. }
  destruct (py_len (get_currency_list o)) as [[|n]|e] eqn:Hn.
  - pose proof (get_currencies_cold _ _ _ Ho Hn) as Hc. cbv zeta in Hc. rewrite Hc.
    destruct (result_of _) as [r|e]; [|reflexivity].
    unfold cache_of. cbn [snd heap].
    rewrite (nth_error_list_set_other _ _ _ _ Hd). reflexivity.
  - rewrite (get_currencies_warm self w (get_currency_list o)).
    + reflexivity.
    + unfold cache_of. rewrite Ho. reflexivity.
    + exists n. exact Hn.
  - rewrite (get_currencies_unsized _ _ _ _ Ho Hn). reflexivity.
Qed.

Lemma init_keeps_instances (key secret : string) (w : world) (i : nat) (o : instance) :
  nth_error (heap w) i = Some o ->
  nth_error (heap (snd (__init__ key secret w))) i = Some o.
Proof.
  intros H. cbn [__init__ snd heap]. rewrite nth_error_app1; [exact H|].
  apply nth_error_Some. congruence.
Qed.

End Properties.

(** * The methods at work *)

Section Examples.

Local Open Scope list_scope.

Import Sample.

#[local] Existing Instance exchange.

(** A quote for one pair, given as two strings. *)
Example quote_one_pair :
  fst (get_exchange_amount (rt := exchange) 0 (VStr "BTC") (VStr "eth") (VStr "0.5")
         one_client)
  = Ok (VFloat 50000000%Z).
Proof. vm_compute. reflexivity. Qed.

(** A quote for two pairs. *)
Example quote_two_pairs :
  fst (get_exchange_amount (rt := exchange) 0
         (VList [VStr "btc"; VStr "eth"]) (VList [VStr "eth"; VStr "btc"]) (VInt 2)
         one_client)
  = Ok (VList [VDict [("from", VStr "btc"); ("to", VStr "eth"); ("amount", VFloat 200000000%Z)];
               VDict [("from", VStr "eth"); ("to", VStr "btc"); ("amount", VFloat 200000000%Z)]]).
Proof. vm_compute. reflexivity. Qed.

(** A transaction with both refund arguments. *)
Example transaction_with_refund :
  fst (create_transaction (rt := exchange) 0 (VStr "btc") (VStr "eth") (VStr "addr")
         (VInt 1) VNone (VStr "back") (VStr "7") one_client)
  = Ok (VStr "tx1").
Proof. vm_compute. reflexivity. Qed.

Lemma request_signs_the_posted_body_witness :
  exists q1 q2,
    dispatched (_request (rt := exchange) 0 "getStatus" (VDict [("id", VStr "tx1")]))
      one_client = [q1] /\
    dispatched (_request (rt := exchange) 0 "getStatus" (VDict [("id", VStr "tx1")]))
      populated = [q2] /\
    data q1 = json_dumps (rpc_envelope "getStatus" (VDict [("id", VStr "tx1")])) /\
    dict_get "sign" (headers q1)
      = Some (hmac_sha512_hexdigest (encode_utf8 "secret") (encode_utf8 (data q1))) /\
    dict_get "sign" (headers q2)
      = Some (hmac_sha512_hexdigest (encode_utf8 "secret") (encode_utf8 (data q2))) /\
    data q1 = data q2 /\
    dict_get "sign" (headers q1) = dict_get "sign" (headers q2).
Proof.
  apply (request_signs_the_posted_body (rt := exchange) 0 0 "getStatus"
           (VDict [("id", VStr "tx1")]) one_client populated
           (mkInstance (encode_utf8 "secret") None)
           (mkInstance (encode_utf8 "secret") (Some currencies))).
  - reflexivity.
  - vm_compute. reflexivity.
  - reflexivity.
Defined.

Lemma get_currencies_populates_once_witness :
  get_currencies (rt := exchange) 0
    (again 3 (get_currencies 0) populated) = (Ok currencies, populated) /\
  dispatched (get_currencies (rt := exchange) 0)
    (again 3 (get_currencies 0) populated) = [].
Proof.
  apply (proj2 (get_currencies_populates_once (rt := exchange) 0 one_client)
           currencies populated).
  - vm_compute. reflexivity.
  - exists 2%nat. reflexivity.
Defined.


Lemma get_exchange_amount_sizeless_result_witness :
  let w1 := snd (exchange_params (rt := exchange_quoting_number) 0
                   (VStr "btc") (VStr "eth") (VStr "0.5") one_client) in
  let w2 := snd (_request (rt := exchange_quoting_number) 0 "getExchangeAmount"
                   (VDict [("from", VStr "btc"); ("to", VStr "eth");
                           ("amount", VFloat 50000000%Z)]) w1) in
  get_exchange_amount (rt := exchange_quoting_number) 0
    (VStr "btc") (VStr "eth") (VStr "0.5") one_client = (Raise TypeError, w2) /\
  exists q, sent w2 = sent w1 ++ [q] /\
            method_of q = Some (VStr "getExchangeAmount").
Proof.
  intros w1 w2.
  apply (get_exchange_amount_sizeless_result (rt := exchange_quoting_number) 0
           (VStr "btc") (VStr "eth") (VStr "0.5")
           (VDict [("from", VStr "btc"); ("to", VStr "eth");
                   ("amount", VFloat 50000000%Z)])
           (VInt 1) one_client w1 w2).
  - vm_compute. reflexivity.
  - vm_compute. reflexivity.
  - reflexivity.
Defined.

Lemma get_min_amount_spec_witness :
  exists o,
    nth_error (heap populated) 0 = Some o /\
    let params := VDict [("from", VStr (lower "BTC")); ("to", VStr (lower "ETH"))] in
    let q := request_of o populated "getMinAmount" params in
    method_of q = Some (VStr "getMinAmount") /\
    params_of q = Some params /\
    get_min_amount 0 "BTC" "ETH" one_client =
      (match result_of (post (sent populated) q) with
       | Ok r => match py_float r with
                 | Ok x => Ok (round8 x)
                 | Raise e => Raise e
                 end
       | Raise e => Raise e
       end, after_request q populated).
Proof.
  assert (H : get_currencies (rt := exchange) 0 one_client = (Ok currencies, populated))
    by (vm_compute; reflexivity).
  exact (get_min_amount_spec (rt := exchange) 0 "BTC" "ETH" one_client populated
           [VStr "btc"; VStr "eth"; VStr "ltc"] H).
Defined.

(** The minimum of the pair, as the call returns it: 0.001. *)
Example min_amount_btc_eth :
  fst (get_min_amount (rt := exchange) 0 "BTC" "ETH" one_client) = Ok 100000%Z.
Proof. vm_compute. reflexivity. Qed.

(** A code the service does not know. *)
Example min_amount_unknown_code :
  fst (get_min_amount (rt := exchange) 0 "BTC" "XYZ" one_client) = Raise invalid_currency /\
  map method_of (dispatched (get_min_amount (rt := exchange) 0 "BTC" "XYZ") one_client)
  = [Some (VStr "getCurrencies")].
Proof. split; vm_compute; reflexivity. Qed.

Lemma get_exchange_amount_below_minimum_witness :
  exists f t,
    In (f, t) (combine ["btc"] ["eth"]) /\
    float_lt 50000%Z 100000%Z = true /\
    fst (get_exchange_amount (rt := exchange) 0 (VStr "BTC") (VStr "ETH") (VStr "0.0005")
           one_client)
    = Raise (below_minimum 100000%Z f) /\
    Forall (fun q => method_of q <> Some (VStr "getExchangeAmount"))
      (dispatched
         (get_exchange_amount (rt := exchange) 0 (VStr "BTC") (VStr "ETH") (VStr "0.0005"))
         one_client).
Proof.
  apply (get_exchange_amount_below_minimum (rt := exchange) 0
           (VStr "BTC") (VStr "ETH") (VStr "0.0005") one_client populated
           ["btc"] ["eth"] 50000%Z [VStr "btc"; VStr "eth"; VStr "ltc"]
           (fun _ _ => 100000%Z)).
  - reflexivity.
  - reflexivity.
  - vm_compute. reflexivity.
  - vm_compute. reflexivity.
  - repeat constructor.
  - repeat constructor.
  - intros f t _ history q Hq.
    exists (VStr "0.001"), 100000%Z.
    split; [|split; reflexivity].
    destruct q as [u h d e]. cbn [envelope] in Hq. subst e. reflexivity.
  - constructor. reflexivity.
Defined.

(** The message of that error. *)
Example below_minimum_message :
  fst (get_exchange_amount (rt := exchange) 0 (VStr "BTC") (VStr "ETH") (VStr "0.0005")
         one_client)
  = Raise (ValueError "Min. mount is amount 0.00100000 BTC.").
Proof. vm_compute. reflexivity. Qed.

Lemma get_exchange_amount_shape_mismatch_witness :
  (exists e w',
     get_exchange_amount (rt := exchange) 0
       (VList [VStr "btc"; VStr "eth"]) (VList [VStr "eth"]) (VStr "0.5") one_client
     = (Raise e, w')) /\
  Forall (fun q => method_of q <> Some (VStr "getExchangeAmount"))
    (dispatched
       (get_exchange_amount (rt := exchange) 0
          (VList [VStr "btc"; VStr "eth"]) (VList [VStr "eth"]) (VStr "0.5"))
       one_client) /\
  (forall (amount : float) (w1 : world float),
     py_float (VStr (py_str (VStr "0.5"))) = Ok amount ->
     check_pairs 0 amount (combine ["btc"; "eth"] ["eth"]) one_client = (Ok tt, w1) ->
     get_exchange_amount (rt := exchange) 0
       (VList [VStr "btc"; VStr "eth"]) (VList [VStr "eth"]) (VStr "0.5") one_client
     = (Raise shape_mismatch, w1)).
Proof.
  apply (get_exchange_amount_shape_mismatch (rt := exchange) 0
           (VList [VStr "btc"; VStr "eth"]) (VList [VStr "eth"]) (VStr "0.5")
           one_client ["btc"; "eth"] ["eth"]).
  - reflexivity.
  - reflexivity.
  - simpl. lia.
Defined.

(** C2 as it is stated fails on this call: the sequences have lengths 2 and 1,
    the call raises the shape mismatch, and by then it has posted
    [getCurrencies] and [getMinAmount]. *)
Lemma shape_mismatch_after_lookups :
  currency_codes (rt := exchange) (VList [VStr "btc"; VStr "eth"]) = Ok ["btc"; "eth"] /\
  currency_codes (rt := exchange) (VList [VStr "eth"]) = Ok ["eth"] /\
  fst (get_exchange_amount (rt := exchange) 0
         (VList [VStr "btc"; VStr "eth"]) (VList [VStr "eth"]) (VStr "0.5") one_client)
  = Raise shape_mismatch /\
  map method_of
    (dispatched
       (get_exchange_amount (rt := exchange) 0
          (VList [VStr "btc"; VStr "eth"]) (VList [VStr "eth"]) (VStr "0.5"))
       one_client)
  = [Some (VStr "getCurrencies"); Some (VStr "getMinAmount")] /\
  dispatched
    (get_exchange_amount (rt := exchange) 0
       (VList [VStr "btc"; VStr "eth"]) (VList [VStr "eth"]) (VStr "0.5"))
    one_client <> [].
Proof.
  split; [reflexivity|]. split; [reflexivity|].
  split; [vm_compute; reflexivity|].
  split; [vm_compute; reflexivity|].
  vm_compute. discriminate.
Qed.

(** With an unknown code in a zipped pair the error is not the shape mismatch
    at all. *)
Example mismatch_with_unknown_code :
  fst (get_exchange_amount (rt := exchange) 0
         (VList [VStr "xyz"; VStr "eth"]) (VList [VStr "eth"]) (VStr "0.5") one_client)
  = Raise invalid_currency.
Proof. vm_compute. reflexivity. Qed.

(** C1 on the call the docstring allows: no refund argument given. *)
Example transaction_without_refund :
  create_transaction (rt := exchange) 0 (VStr "btc") (VStr "eth") (VStr "addr") (VInt 1)
    VNone VNone VNone one_client
  = (Raise TypeError, one_client).
Proof. reflexivity. Qed.

(** C9 on two clients: after the second is constructed, a request of the
    first carries the key of the second. *)
Example first_client_posts_second_key :
  map (fun q => dict_get "api-key" (headers q))
    (dispatched (_request (rt := exchange) 0 "getCurrencies" VNone)
       (snd (__init__ "key2" "secret2" one_client)))
  = [Some "key2"].
Proof. vm_compute. reflexivity. Qed.

End Examples.

(** * What a method keeps *)

Section Keeping.

Context {rt : Runtime}.

Local Abbreviation value := (pyval float).
Local Abbreviation instance := (instance float).
Local Abbreviation world := (world float).

Local Open Scope list_scope.

(** A relation between worlds that the steps of [_request] and the
    assignment of [get_currencies] respect, for the methods of [self]. *)
Variable R : world -> world -> Prop.
Variable self : nat.

Hypothesis R_refl : forall w, R w w.
Hypothesis R_trans : forall w1 w2 w3, R w1 w2 -> R w2 w3 -> R w1 w3.
Hypothesis R_sign :
  forall w s, R w (mkWorld (dict_set "sign" s (_headers w)) (heap w) (sent w)).
Hypothesis R_post :
  forall w q, R w (mkWorld (_headers w) (heap w) (sent w ++ [q])).
Hypothesis R_assign :
  forall w o v,
    nth_error (heap w) self = Some o ->
    py_len (get_currency_list o) = Ok O ->
    R w (mkWorld (_headers w)
           (list_set (heap w) self (mkInstance (_secret o) (Some v))) (sent w)).

Lemma keeps_ret {A : Type} (a : A) : keeps R (ret a).
Proof. intros w. apply R_refl. Qed.

Lemma keeps_raise {A : Type} (e : exn) : keeps R (@raise _ A e).
Proof. intros w. apply R_refl. Qed.

Lemma keeps_lift {A : Type} (o : outcome A) : keeps R (lift o).
Proof. intros w. apply R_refl. Qed.

Lemma keeps_bind {A B : Type} (m : M A) (k : A -> M B) :
  keeps R m -> (forall a, keeps R (k a)) -> keeps R (bind m k).
Proof.
  intros Hm Hk w. specialize (Hm w). unfold bind.
  destruct (m w) as [[a|e] w']; cbn [snd] in *.
  - eapply R_trans; [exact Hm | apply Hk].
  - exact Hm.
Qed.

Lemma R_after_request (w : world) (o : instance) (command : string) (params : value) :
  R w (after_request (request_of o w command params) w).
Proof.
  set (q := request_of o w command params).
  set (w1 := mkWorld (headers q) (heap w) (sent w)).
  apply (R_trans w w1).
  - apply R_sign.
  - exact (R_post w1 q).
Qed.

Lemma keeps_request (command : string) (params : value) :
  keeps R (_request self command params).
Proof.
  intros w. destruct (nth_error (heap w) self) as [o|] eqn:Ho.
  - rewrite (_request_eq _ _ _ _ _ Ho). apply R_after_request.
  - rewrite (_request_unknown _ _ _ _ Ho). apply R_refl.
Qed.

Lemma keeps_get_currencies : keeps R (get_currencies self).
Proof.
  intros w. destruct (nth_error (heap w) self) as [o|] eqn:Ho.
  2:{ rewrite (get_currencies_unknown _ _ Ho). apply R_refl. }
  destruct (py_len (get_currency_list o)) as [[|n]|e] eqn:Hn.
  - pose proof (get_currencies_cold _ _ _ Ho Hn) as Hc. cbv zeta in Hc. rewrite Hc.
    set (q := request_of o w "getCurrencies" VNone).
    destruct (result_of (post (sent w) q)) as [r|e]; cbn [snd].
    + apply (R_trans w (after_request q w)); [apply R_after_request|].
      exact (R_assign (after_request q w) o r Ho Hn).
    + apply R_after_request.
  - rewrite (get_currencies_warm self w (get_currency_list o)).
    + apply R_refl.
    + unfold cache_of. rewrite Ho. reflexivity.
    + exists n. exact Hn.
  - rewrite (get_currencies_unsized _ _ _ _ Ho Hn). apply R_refl.
Qed.

Lemma keeps_get_min_amount (f t : string) : keeps R (get_min_amount self f t).
Proof.
  unfold get_min_amount.
  apply keeps_bind; [apply keeps_get_currencies|]. intros l.
  apply keeps_bind; [apply keeps_lift|]. intros a.
  apply keeps_bind.
  - destruct a; [|apply keeps_ret].
    apply keeps_bind; [apply keeps_get_currencies|]. intros l'. apply keeps_lift.
  - intros [|]; [|apply keeps_raise].
    apply keeps_bind; [apply keeps_request|]. intros r.
    apply keeps_bind; [apply keeps_lift|]. intros x. apply keeps_ret.
Qed.

Lemma keeps_check_pairs (amount : float) (pairs : list (string * string)) :
  keeps R (check_pairs self amount pairs).
Proof.
  induction pairs as [|[f t] pairs IH]; cbn [check_pairs].
  - apply keeps_ret.
  - apply keeps_bind; [apply keeps_get_currencies|]. intros l.
    apply keeps_bind; [apply keeps_lift|]. intros a.
    apply keeps_bind; [apply keeps_get_currencies|]. intros l'.
    apply keeps_bind; [apply keeps_lift|]. intros b.
    apply keeps_bind; [|intros _; exact IH].
    destruct (a && b); [|apply keeps_raise].
    apply keeps_bind; [apply keeps_get_min_amount|]. intros x.
    destruct (float_lt amount x); [apply keeps_raise | apply keeps_ret].
Qed.

Lemma keeps_get_exchange_amount (fc tc a : value) :
  keeps R (get_exchange_amount self fc tc a).
Proof.
  unfold get_exchange_amount.
  apply keeps_bind.
  - unfold exchange_params.
    apply keeps_bind; [apply keeps_lift|]. intros fs.
    apply keeps_bind; [apply keeps_lift|]. intros ts.
    apply keeps_bind; [apply keeps_lift|]. intros x.
    apply keeps_bind; [apply keeps_check_pairs|]. intros _.
    destruct (negb _); [apply keeps_raise|].
    destruct (_ =? 1)%nat; apply keeps_ret.
  - intros params. apply keeps_bind; [apply keeps_request|]. intros r. apply keeps_lift.
Qed.

Lemma keeps_create_transaction (f t d a e ra re : value) :
  keeps R (create_transaction self f t d a e ra re).
Proof.
  unfold create_transaction.
  apply keeps_bind; [apply keeps_lift|]. intros c1.
  apply keeps_bind; [apply keeps_lift|]. intros c2.
  apply keeps_bind; [apply keeps_request|]. intros r. apply keeps_ret.
Qed.

Lemma keeps_get_transaction_status (tx : value) :
  keeps R (get_transaction_status self tx).
Proof. unfold get_transaction_status. apply keeps_request. Qed.

Lemma keeps_run (c : call float) : keeps R (run self c).
Proof.
  destruct c; cbn [run].
  - apply keeps_get_currencies.
  - apply keeps_bind; [apply keeps_get_min_amount|]. intros x. apply keeps_ret.
  - apply keeps_get_exchange_amount.
  - apply keeps_create_transaction.
  - apply keeps_get_transaction_status.
Qed.

End Keeping.

(** * Invariants of client programs *)

Section Invariants.

Context {rt : Runtime}.

Local Abbreviation value := (pyval float).
Local Abbreviation instance := (instance float).
Local Abbreviation world := (world float).

Local Open Scope list_scope.

Lemma map_secret_list_set (l : list instance) (i : nat) (o : instance) (v : option value) :
  nth_error l i = Some o ->
  map _secret (list_set l i (mkInstance (_secret o) v)) = map _secret l.
Proof.
  revert i. induction l as [|b l IH]; intros [|i] H; simpl in *; try discriminate.
  - injection H as ->. reflexivity.
  - rewrite (IH i H). reflexivity.
Qed.

Lemma run_keeps_credentials (self : nat) (c : call float) :
  keeps same_credentials (run self c).
Proof.
  apply keeps_run.
  - intros w. split; reflexivity.
  - intros w1 w2 w3 [H1 H2] [H3 H4]. split; congruence.
  - intros w s. split; [reflexivity|]. cbn [_headers].
    apply dict_get_set_other. reflexivity.
  - intros w q. split; reflexivity.
  - intros w o v Ho _. split; [|reflexivity]. cbn [heap].
    apply map_secret_list_set. exact Ho.
Qed.

Lemma run_keeps_caches (self : nat) (c : call float) :
  keeps caches_kept (run self c).
Proof.
  apply keeps_run.
  - intros w i v H _. exact H.
  - intros w1 w2 w3 H1 H2 i v H Hv. apply H2; [|exact Hv]. apply H1; assumption.
  - intros w s i v H _. exact H.
  - intros w q i v H _. exact H.
  - intros w o v Ho Hn i u H [n Hu]. unfold cache_of in *. cbn [heap].
    destruct (Nat.eq_dec self i) as [<-|Hd].
    + rewrite Ho in H. cbn [option_map] in H. injection H as <-. congruence.
    + rewrite (nth_error_list_set_other _ _ _ _ Hd). exact H.
Qed.

Lemma run_leaves_others (self : nat) (c : call float) :
  keeps (others_untouched self) (run self c).
Proof.
  apply keeps_run.
  - intros w i _. reflexivity.
  - intros w1 w2 w3 H1 H2 i Hi. rewrite (H2 i Hi). apply H1. exact Hi.
  - intros w s i _. reflexivity.
  - intros w q i _. reflexivity.
  - intros w o v _ _ i Hi. cbn [heap].
    apply nth_error_list_set_other. congruence.
Qed.

(** X1. Whatever methods a program calls on whatever instances, and whatever
    they return or raise, the secret of every instance and the [api-key]
    header are afterwards what they were: only [__init__] writes them. *)
Theorem session_keeps_credentials (calls : list (nat * call float)) (w : world) :
  map _secret (heap (session calls w)) = map _secret (heap w) /\
  dict_get "api-key" (_headers (session calls w)) = dict_get "api-key" (_headers w).
Proof.
  revert w. induction calls as [|[self c] calls IH]; intros w; cbn [session].
  - split; reflexivity.
  - destruct (IH (snd (run self c w))) as [H1 H2].
    destruct (run_keeps_credentials self c w) as [H3 H4].
    split; congruence.
Qed.

(** X2. A cached currency list that is not empty is never replaced: after any
    program it is still the cached list of its instance. *)
Theorem session_keeps_caches
    (calls : list (nat * call float)) (w : world) (i : nat) (v : value) :
  cache_of i w = Some v -> nonempty v ->
  cache_of i (session calls w) = Some v.
Proof.
  revert w. induction calls as [|[self c] calls IH]; intros w H Hv; cbn [session].
  - exact H.
  - apply IH; [|exact Hv]. apply (run_keeps_caches self c w); assumption.
Qed.

(** X3. A program that calls no method on instance [i] leaves the attributes
    of [i], its secret and its cached list, as they were. *)
Theorem session_leaves_other_instances
    (calls : list (nat * call float)) (w : world) (i : nat) :
  Forall (fun sc => fst sc <> i) calls ->
  nth_error (heap (session calls w)) i = nth_error (heap w) i.
Proof.
  intros H. revert w. induction H as [|[self c] calls Hd _ IH]; intros w; cbn [session].
  - reflexivity.
  - rewrite IH. apply (run_leaves_others self c w). cbn [fst] in Hd. congruence.
Qed.

Lemma posts_only_get_exchange_amount (self : nat) (fc tc a : value) :
  posts_only ["getCurrencies"; "getMinAmount"; "getExchangeAmount"]
    (get_exchange_amount self fc tc a).
Proof.
  unfold get_exchange_amount. apply posts_only_bind.
  - eapply posts_only_incl; [|apply posts_only_exchange_params].
    intros x [Hx|[Hx|[]]]; [left | right; left]; exact Hx.
  - intros params. apply posts_only_bind; [|intros r; apply posts_only_lift].
    eapply posts_only_incl; [|apply posts_only__request].
    intros x [Hx|[]]. right. right. left. exact Hx.
Qed.

Lemma posts_only_create_transaction (self : nat) (f t d a e ra re : value) :
  posts_only ["createTransaction"] (create_transaction self f t d a e ra re).
Proof.
  unfold create_transaction.
  apply posts_only_bind; [apply posts_only_lift|]. intros c1.
  apply posts_only_bind; [apply posts_only_lift|]. intros c2.
  apply posts_only_bind; [apply posts_only__request|]. intros r. apply posts_only_ret.
Qed.

(** X4. The requests a call posts are added after those already sent, and
    they call only the remote methods of that call: the lookups never post
    [getExchangeAmount], and [create_transaction] and
    [get_transaction_status] look nothing up. *)
Theorem run_posts_only (self : nat) (c : call float) (w : world) :
  sent (snd (run self c w)) = sent w ++ dispatched (run self c) w /\
  Forall (calls (may_post c)) (dispatched (run self c) w).
Proof.
  assert (H : posts_only (may_post c) (run self c)).
  { destruct c; cbn [run may_post].
    - apply posts_only_get_currencies.
    - apply posts_only_bind; [apply posts_only_get_min_amount|].
      intros x. apply posts_only_ret.
    - apply posts_only_get_exchange_amount.
    - apply posts_only_create_transaction.
    - unfold get_transaction_status. apply posts_only__request. }
  destruct (H w) as [l [E F]]. rewrite (dispatched_eq _ _ _ E). split; assumption.
Qed.

(** ** [get_currencies]: results that are not lists, and failures *)

(** X5. [get_currencies] stores whatever result the service gives.  When the
    result is [None] or a number, it is returned once; from then on
    [get_currencies], [get_min_amount] and, on at least one pair,
    [get_exchange_amount] raise [TypeError] on that instance and post
    nothing, since [len] of the stored value raises. *)
Theorem get_currencies_stores_any_result (self : nat) (w w' : world) (v : value) :
  get_currencies self w = (Ok v, w') ->
  sizeless v = true ->
  cache_of self w' = Some v /\
  (forall n, get_currencies self (again n (get_currencies self) w') = (Raise TypeError, w')) /\
  (forall f t, get_min_amount self f t w' = (Raise TypeError, w')) /\
  (forall fc tc a fs ts amount,
     currency_codes fc = Ok fs -> currency_codes tc = Ok ts ->
     py_float (VStr (py_str a)) = Ok amount ->
     combine fs ts <> [] ->
     get_exchange_amount self fc tc a w' = (Raise TypeError, w')).
Proof.
  intros H Hv.
  assert (Hlen : py_len v = Raise TypeError) by (destruct v; try discriminate; reflexivity).
  assert (Hc : cache_of self w' = Some v).
  { destruct (nth_error (heap w) self) as [o|] eqn:Ho.
    2:{ rewrite (get_currencies_unknown _ _ Ho) in H. discriminate. }
    destruct (py_len (get_currency_list o)) as [[|n]|e] eqn:Hn.
    - pose proof (get_currencies_cold _ _ _ Ho Hn) as E. cbv zeta in E.
      rewrite E in H. clear E.
      destruct (result_of _) as [r|e]; [|discriminate].
      injection H as <- <-. unfold cache_of. cbn [heap].
      rewrite (nth_error_list_set _ _ _ _ Ho). reflexivity.
    - rewrite (get_currencies_warm self w (get_currency_list o)) in H.
      + injection H as <- <-. congruence.
      + unfold cache_of. rewrite Ho. reflexivity.
      + exists n. exact Hn.
    - rewrite (get_currencies_unsized _ _ _ _ Ho Hn) in H. discriminate. }
  destruct (cache_of_instance _ _ _ Hc) as [o' [Ho' Hl']].
  assert (Hraise : get_currencies self w' = (Raise TypeError, w')).
  { apply (get_currencies_unsized _ _ o'); [exact Ho' | rewrite Hl'; exact Hlen]. }
  split; [exact Hc|]. split; [|split].
  - intros n. rewrite again_fixed; [exact Hraise | rewrite Hraise; reflexivity].
  - intros f t. unfold get_min_amount. apply bind_raise. exact Hraise.
  - intros fc tc a fs ts amount Hf Ht Ha Hp.
    apply get_exchange_amount_raise.
    rewrite (exchange_params_checked _ _ _ _ _ _ _ _ Hf Ht Ha).
    destruct (combine fs ts) as [|[f t] pairs]; [congruence|].
    cbn [check_pairs]. rewrite (bind_raise _ _ _ _ _ Hraise). reflexivity.
Qed.

(** X6. When [get_currencies] raises, nothing is assigned: every instance,
    and so every cached list, is as it was. *)
Theorem get_currencies_failure_keeps_heap (self : nat) (w w' : world) (e : exn) :
  get_currencies self w = (Raise e, w') ->
  heap w' = heap w /\ forall i, cache_of i w' = cache_of i w.
Proof.
  intros H.
  assert (Hh : heap w' = heap w).
  { destruct (nth_error (heap w) self) as [o|] eqn:Ho.
    2:{ rewrite (get_currencies_unknown _ _ Ho) in H. injection H as _ <-. reflexivity. }
    destruct (py_len (get_currency_list o)) as [[|n]|e'] eqn:Hn.
    - pose proof (get_currencies_cold _ _ _ Ho Hn) as E. cbv zeta in E.
      rewrite E in H. clear E.
      destruct (result_of _) as [r|e']; [discriminate|].
      injection H as _ <-. reflexivity.
    - rewrite (get_currencies_warm self w (get_currency_list o)) in H.
      + discriminate.
      + unfold cache_of. rewrite Ho. reflexivity.
      + exists n. exact Hn.
    - rewrite (get_currencies_unsized _ _ _ _ Ho Hn) in H. injection H as _ <-. reflexivity. }
  split; [exact Hh|]. intros i. unfold cache_of. rewrite Hh. reflexivity.
Qed.

End Invariants.

(** * Results and requests of [get_exchange_amount] *)

Section Results.

Context {rt : Runtime}.

Local Abbreviation value := (pyval float).
Local Abbreviation instance := (instance float).
Local Abbreviation world := (world float).

Local Open Scope list_scope.

Lemma nth_error_at_length {A : Type} (pre l : list A) (a : A) :
  nth_error (pre ++ a :: l) (List.length pre) = Some a.
Proof. induction pre as [|b pre IH]; simpl; auto. Qed.

Lemma list_set_at_length {A : Type} (pre l : list A) (a b : A) :
  list_set (pre ++ a :: l) (List.length pre) b = pre ++ b :: l.
Proof. induction pre as [|c pre IH]; simpl; [reflexivity|]. rewrite IH. reflexivity. Qed.

(** The loop over the indices does to the list what [round_records] does. *)
Lemma round_amounts_records (l pre : list value) :
  round_amounts (VList (pre ++ l)) (List.length pre) (List.length l)
  = match round_records l with
    | Ok l' => Ok (VList (pre ++ l'))
    | Raise e => Raise e
    end.
Proof.
  revert pre. induction l as [|r l IH]; intros pre.
  - reflexivity.
  - cbn [List.length round_amounts round_records getitem_int].
    rewrite nth_error_at_length. unfold round_record.
    destruct (getitem_str r "amount") as [a|e]; [|reflexivity].
    destruct (py_float a) as [x|e]; [|reflexivity].
    destruct (setitem_str r "amount" (VFloat (round8 x))) as [r'|e]; [|reflexivity].
    rewrite list_set_at_length.
    replace (pre ++ r' :: l) with ((pre ++ [r']) ++ l) by (rewrite <- app_assoc; reflexivity).
    replace (S (List.length pre)) with (List.length (pre ++ [r']))
      by (rewrite length_app; simpl; lia).
    rewrite IH. destruct (round_records l) as [l'|e]; [|reflexivity].
    rewrite <- app_assoc. reflexivity.
Qed.

Lemma exchange_result_list (l : list value) :
  exchange_result (VList l)
  = match round_records l with
    | Ok l' => Ok (VList l')
    | Raise e => Raise e
    end.
Proof.
  unfold exchange_result. cbn [py_len is_str].
  exact (round_amounts_records l []).
Qed.

Lemma dict_keys_set {V : Type} (k : string) (v a : V) (d : list (string * V)) :
  dict_get k d = Some a -> dict_keys (dict_set k v d) = dict_keys d.
Proof.
  unfold dict_keys. induction d as [|[k' v'] d IH]; simpl; [discriminate|].
  destruct (String.eqb k k') eqn:E; simpl; intros H; [reflexivity|].
  rewrite (IH H). reflexivity.
Qed.

Lemma round_record_rounded (r r' : value) :
  round_record r = Ok r' <-> rounded r r'.
Proof.
  split.
  - unfold round_record. destruct r; try discriminate. cbn [getitem_str].
    destruct (dict_get "amount" d) as [a|] eqn:Ha; [|discriminate].
    destruct (py_float a) as [x|] eqn:Hx; [|discriminate].
    cbn [setitem_str]. intros H. injection H as <-.
    exists d, a, x. repeat split; auto.
    + eapply dict_keys_set. exact Ha.
    + intros k Hk. apply dict_get_set_other. exact Hk.
  - intros [d [a [x [-> [Ha [Hx [-> _]]]]]]].
    unfold round_record. cbn [getitem_str]. rewrite Ha, Hx. reflexivity.
Qed.

Lemma round_records_rounded (l l' : list value) :
  round_records l = Ok l' <-> Forall2 rounded l l'.
Proof.
  revert l'. induction l as [|r l IH]; intros l'; cbn [round_records].
  - split.
    + intros H. injection H as <-. constructor.
    + intros H. inversion H. reflexivity.
  - split.
    + destruct (round_record r) as [r'|] eqn:Hr; [|discriminate].
      destruct (round_records l) as [l''|] eqn:Hl; [|discriminate].
      intros H. injection H as <-. constructor.
      * apply round_record_rounded. exact Hr.
      * apply IH. reflexivity.
    + intros H. inversion H as [|r0 r' l0 l'' Hr Hl]; subst.
      apply round_record_rounded in Hr. apply IH in Hl. rewrite Hr, Hl. reflexivity.
Qed.

(** X7. On a list result, [get_exchange_amount] returns exactly when every
    record is a dictionary whose [amount] converts to a float; what it
    returns is the list of the same records in the same order, each with its
    [amount] replaced by the rounded float, its other entries and the order of
    its keys unchanged. *)
Theorem exchange_result_rounds_records (l : list value) (v : value) :
  exchange_result (VList l) = Ok v <-> exists l', v = VList l' /\ Forall2 rounded l l'.
Proof.
  rewrite exchange_result_list. split.
  - destruct (round_records l) as [l'|] eqn:Hl; [|discriminate].
    intros H. injection H as <-. exists l'. split; [reflexivity|].
    apply round_records_rounded. exact Hl.
  - intros [l' [-> H]]. apply round_records_rounded in H. rewrite H. reflexivity.
Qed.

(** X8. When the records before it convert, a record that is not a
    dictionary makes a list result raise [TypeError], and a dictionary
    without [amount] makes it raise [KeyError], whatever follows. *)
Theorem exchange_result_bad_record (pre pre' post : list value) (r : value) :
  Forall2 rounded pre pre' ->
  ((forall d, r <> VDict d) ->
   exchange_result (VList (pre ++ r :: post)) = Raise TypeError) /\
  (forall d, r = VDict d -> dict_get "amount" d = None ->
   exchange_result (VList (pre ++ r :: post)) = Raise KeyError).
Proof.
  intros Hpre. apply round_records_rounded in Hpre.
  assert (E : forall e, round_record r = Raise e ->
                exchange_result (VList (pre ++ r :: post)) = Raise e).
  { intros e He. rewrite exchange_result_list.
    clear -Hpre He. revert pre' Hpre.
    induction pre as [|p pre IH]; intros pre' Hpre; cbn [app round_records].
    - rewrite He. reflexivity.
    - cbn [round_records] in Hpre.
      destruct (round_record p) as [p'|]; [|discriminate].
      destruct (round_records pre) as [pre''|] eqn:Hp; [|discriminate].
      specialize (IH pre'' eq_refl).
      destruct (round_records (pre ++ r :: post)); [discriminate|].
      exact IH. }
  split.
  - intros Hr. apply E. destruct r; try reflexivity. exfalso. exact (Hr d eq_refl).
  - intros d -> Ha. apply E. unfold round_record. cbn [getitem_str]. rewrite Ha. reflexivity.
Qed.

(** X9. A result that is a JSON object is indexed by position: the empty
    object is returned as it is, any other raises [KeyError].  A string is
    never indexed: it is converted to a float and rounded. *)
Theorem exchange_result_object_or_string :
  (forall d : list (string * value),
     exchange_result (VDict d)
     = match d with [] => Ok (VDict []) | _ :: _ => Raise KeyError end) /\
  (forall s : string,
     exchange_result (VStr s)
     = match py_float (VStr s) with
       | Ok x => Ok (VFloat (round8 x))
       | Raise e => Raise e
       end).
Proof.
  split.
  - intros [|kv d]; reflexivity.
  - intros s. reflexivity.
Qed.

End Results.

(** * The requests of a quote, a transaction and a status *)

Section Validation.

Context {rt : Runtime}.

Local Abbreviation value := (pyval float).
Local Abbreviation instance := (instance float).
Local Abbreviation world := (world float).

Local Open Scope list_scope.

(** One turn of the loop on a valid pair, with the world it leaves. *)
Lemma check_pairs_step_posted (self : nat) (amount : float)
    (minimum : string -> string -> float) (L : list value) (f t : string)
    (pairs : list (string * string)) (w : world) (o : instance) :
  nth_error (heap w) self = Some o ->
  get_currency_list o = VList L ->
  valid_pair minimum L (f, t) ->
  let q := request_of o w "getMinAmount"
             (VDict [("from", VStr (lower f)); ("to", VStr (lower t))]) in
  check_pairs self amount ((f, t) :: pairs) w =
    if float_lt amount (minimum f t)
    then (Raise (below_minimum (minimum f t) f), after_request q w)
    else check_pairs self amount pairs (after_request q w).
Proof.
  intros Ho HL [[Hf Hlf] [[Ht Hlt] Hq]] q. cbn [fst snd] in *.
  pose proof (existsb_nonempty _ _ Hf) as Hne.
  assert (Hc : get_currencies self w = (Ok (VList L), w)).
  { apply get_currencies_warm; [|exact Hne]. unfold cache_of. rewrite Ho, <- HL. reflexivity. }
  destruct (Hq (sent w) q eq_refl) as [r [x [Hr [Hx Hm]]]].
  assert (Hmin : get_min_amount self f t w = (Ok (minimum f t), after_request q w)).
  { pose proof (get_min_amount_warm self f t w o L Ho HL Hne) as E. cbv zeta in E.
    rewrite Hlf, Hlt in E. fold q in E. rewrite Hr, Hx, Hm in E. exact E. }
  cbn [check_pairs].
  rewrite (bind_ok _ _ _ _ _ Hc).
  unfold lift at 1. unfold bind at 1. cbn [py_in]. rewrite Hf.
  rewrite (bind_ok _ _ _ _ _ Hc).
  unfold lift at 1. unfold bind at 1. cbn [py_in]. rewrite Ht. cbn [andb].
  unfold bind at 1. rewrite (bind_ok _ _ _ _ _ Hmin).
  destruct (float_lt amount (minimum f t)); reflexivity.
Qed.

(** The loop goes through the pairs it accepts, posting the lookup of each in
    order and nothing else. *)
Lemma check_pairs_accepts (self : nat) (amount : float)
    (minimum : string -> string -> float) (L : list value) (o : instance)
    (pre rest : list (string * string)) :
  Forall (valid_pair minimum L) pre ->
  Forall (fun ft => below minimum amount ft = false) pre ->
  forall w : world,
    nth_error (heap w) self = Some o ->
    get_currency_list o = VList L ->
    exists w' l,
      check_pairs self amount (pre ++ rest) w = check_pairs self amount rest w' /\
      nth_error (heap w') self = Some o /\
      sent w' = sent w ++ l /\
      map envelope l = map lookup_envelope pre.
Proof.
  induction pre as [|[f t] pre IH]; intros Hv Hb w Ho HL.
  - exists w, []. repeat split; auto. symmetry. apply app_nil_r.
  - inversion Hv as [|x xs Hv1 Hv2]; subst. inversion Hb as [|y ys Hb1 Hb2]; subst.
    pose proof (check_pairs_step_posted self amount minimum L f t (pre ++ rest) w o Ho HL Hv1)
      as E. cbv zeta in E.
    unfold below in Hb1. cbn [fst snd] in Hb1. rewrite Hb1 in E.
    set (q := request_of o w "getMinAmount"
                (VDict [("from", VStr (lower f)); ("to", VStr (lower t))])) in *.
    destruct (IH Hv2 Hb2 (after_request q w) Ho HL) as [w' [l [E' [Ho' [Hs Hm]]]]].
    exists w', (q :: l). repeat split.
    + cbn [app]. rewrite E. exact E'.
    + exact Ho'.
    + rewrite Hs. cbn [after_request sent]. rewrite <- app_assoc. reflexivity.
    + cbn [map]. rewrite Hm. reflexivity.
Qed.

Lemma quote_params_eq (amount : float) (fs ts : list string) :
  List.length fs = List.length ts ->
  (if (List.length fs =? 1)%nat
   then quote amount (nth 0 fs EmptyString, nth 0 ts EmptyString)
   else VList (map (quote amount) (combine fs ts)))
  = quote_params amount (combine fs ts).
Proof.
  destruct fs as [|f [|f' fs]], ts as [|t [|t' ts]]; simpl; intros H;
    try discriminate; reflexivity.
Qed.

(** X10. With the list cached, as many from-codes as to-codes, every pair
    valid (each code and its lower-case form are in the list, and
    [minimum f t] is the minimum [get_min_amount] computes for the pair) and
    no minimum above the amount, [get_exchange_amount] posts one
    [getMinAmount] lookup per pair, in order and with the lower-cased codes,
    then one [getExchangeAmount]: its params are one dictionary for exactly
    one pair and a list of dictionaries otherwise, the empty list when there
    is no pair. *)
Theorem get_exchange_amount_requests
    (self : nat) (fc tc a : value) (w : world) (fs ts : list string)
    (amount : float) (L : list value) (minimum : string -> string -> float) :
  currency_codes fc = Ok fs ->
  currency_codes tc = Ok ts ->
  py_float (VStr (py_str a)) = Ok amount ->
  cache_of self w = Some (VList L) ->
  List.length fs = List.length ts ->
  Forall (valid_pair minimum L) (combine fs ts) ->
  Forall (fun ft => float_lt amount (minimum (fst ft) (snd ft)) = false) (combine fs ts) ->
  map envelope (dispatched (get_exchange_amount self fc tc a) w)
  = map lookup_envelope (combine fs ts)
    ++ [rpc_envelope "getExchangeAmount" (quote_params amount (combine fs ts))].
Proof.
  intros Hf Ht Ha Hc Hlen Hvalid Hb.
  destruct (cache_of_instance _ _ _ Hc) as [o [Ho HL]].
  destruct (check_pairs_accepts self amount minimum L o (combine fs ts) [] Hvalid Hb w Ho HL)
    as [w' [l [E [Ho' [Hs Hm]]]]].
  rewrite app_nil_r in E. cbn [check_pairs] in E.
  assert (Ep : exchange_params self fc tc a w
               = (Ok (quote_params amount (combine fs ts)), w')).
  { rewrite (exchange_params_checked _ _ _ _ _ _ _ _ Hf Ht Ha), E.
    unfold ret. rewrite Hlen, Nat.eqb_refl. cbn [negb].
    rewrite <- Hlen. rewrite <- (quote_params_eq amount fs ts Hlen).
    destruct (List.length fs =? 1)%nat; reflexivity. }
  set (q := request_of o w' "getExchangeAmount" (quote_params amount (combine fs ts))).
  rewrite (dispatched_eq _ w (l ++ [q])).
  - rewrite map_app, Hm. reflexivity.
  - unfold get_exchange_amount. rewrite (bind_ok _ _ _ _ _ Ep).
    unfold bind. rewrite (_request_eq _ _ _ _ _ Ho'). fold q.
    destruct (result_of (post (sent w') q)); cbn [snd lift after_request sent];
      rewrite Hs, <- app_assoc; reflexivity.
Qed.

(** X11. With the list cached and not empty, when the loop accepts the pairs
    before a pair one normalized code of which is not in the list (the test
    of line 119), the call raises the invalid-currency error: it has posted
    the lookups of the pairs before and nothing for that pair, and no
    [getExchangeAmount]. *)
Theorem get_exchange_amount_invalid_pair
    (self : nat) (fc tc a : value) (w : world) (fs ts : list string)
    (amount : float) (L : list value) (minimum : string -> string -> float)
    (pre post : list (string * string)) (f t : string) :
  currency_codes fc = Ok fs ->
  currency_codes tc = Ok ts ->
  py_float (VStr (py_str a)) = Ok amount ->
  cache_of self w = Some (VList L) ->
  nonempty (VList L) ->
  combine fs ts = pre ++ (f, t) :: post ->
  Forall (valid_pair minimum L) pre ->
  Forall (fun ft => float_lt amount (minimum (fst ft) (snd ft)) = false) pre ->
  existsb (str_eq f) L && existsb (str_eq t) L = false ->
  fst (get_exchange_amount self fc tc a w) = Raise invalid_currency /\
  map envelope (dispatched (get_exchange_amount self fc tc a) w) = map lookup_envelope pre.
Proof.
  intros Hf Ht Ha Hc Hne Hsplit Hvalid Hb Hbad.
  destruct (cache_of_instance _ _ _ Hc) as [o [Ho HL]].
  destruct (check_pairs_accepts self amount minimum L o pre ((f, t) :: post)
              Hvalid Hb w Ho HL) as [w' [l [E [Ho' [Hs Hm]]]]].
  assert (Hw : get_currencies self w' = (Ok (VList L), w')).
  { apply get_currencies_warm; [|exact Hne]. unfold cache_of. rewrite Ho', <- HL. reflexivity. }
  assert (Ebad : check_pairs self amount ((f, t) :: post) w' = (Raise invalid_currency, w')).
  { cbn [check_pairs].
    rewrite (bind_ok _ _ _ _ _ Hw).
    unfold lift at 1. unfold bind at 1. cbn [py_in].
    rewrite (bind_ok _ _ _ _ _ Hw).
    unfold lift at 1. unfold bind at 1. cbn [py_in].
    rewrite Hbad. reflexivity. }
  assert (Ep : exchange_params self fc tc a w = (Raise invalid_currency, w')).
  { rewrite (exchange_params_checked _ _ _ _ _ _ _ _ Hf Ht Ha), Hsplit, E, Ebad. reflexivity. }
  rewrite (get_exchange_amount_raise _ _ _ _ _ _ _ Ep). split; [reflexivity|].
  rewrite (dispatched_eq _ w l); [exact Hm|].
  rewrite (get_exchange_amount_raise _ _ _ _ _ _ _ Ep). exact Hs.
Qed.

(** ** [get_transaction_status] and [create_transaction] *)

(** X12. [get_transaction_status] posts one [getStatus] request whose params
    are [{id: str(tx_id)}], whatever the identifier is, and returns what
    [_request] makes of the answer: the result as it is, [None] when the
    answer has none. *)
Theorem get_transaction_status_spec (self : nat) (tx_id : value) (w : world) (o : instance) :
  nth_error (heap w) self = Some o ->
  exists q,
    dispatched (get_transaction_status self tx_id) w = [q] /\
    envelope q = rpc_envelope "getStatus" (VDict [("id", VStr (py_str tx_id))]) /\
    params_of q = Some (VDict [("id", VStr (py_str tx_id))]) /\
    fst (get_transaction_status self tx_id w) = result_of (post (sent w) q) /\
    (forall d, post (sent w) q = Response true (Some (VDict d)) ->
               fst (get_transaction_status self tx_id w)
               = Ok (match dict_get "result" d with Some v => v | None => VNone end)).
Proof.
  intros Ho. unfold get_transaction_status.
  exists (request_of o w "getStatus" (VDict [("id", VStr (py_str tx_id))])).
  rewrite (_request_dispatched _ _ _ _ _ Ho), (_request_eq _ _ _ _ _ Ho). cbn [fst].
  repeat split.
  intros d Hd. rewrite Hd. cbn [result_of json_result].
  destruct (dict_get "result" d); reflexivity.
Qed.

(** X13. When both refund arguments have a length, [create_transaction] posts
    one request and returns what [_request] makes of the answer.  The keys of
    its params are [from], [to], [address], [extraId], [amount], then
    [refundAddress] and [refundExtraId] for the refund arguments that are
    strings and not empty; the five first values are the arguments as given,
    an [extra_id] other than [None] included. *)
Theorem create_transaction_params
    (self : nat) (from_currency to_currency destination_address amount
     extra_id refund_address refund_extra_id : value)
    (w : world) (o : instance) (a b : bool) :
  nth_error (heap w) self = Some o ->
  nonempty_str refund_address = Ok a ->
  nonempty_str refund_extra_id = Ok b ->
  exists q d,
    dispatched
      (create_transaction self from_currency to_currency destination_address amount
         extra_id refund_address refund_extra_id) w = [q] /\
    envelope q = rpc_envelope "createTransaction" (VDict d) /\
    fst (create_transaction self from_currency to_currency destination_address amount
           extra_id refund_address refund_extra_id w) = result_of (post (sent w) q) /\
    dict_keys d
      = ["from"; "to"; "address"; "extraId"; "amount"]
        ++ (if a then ["refundAddress"] else [])
        ++ (if b then ["refundExtraId"] else []) /\
    dict_get "from" d = Some from_currency /\
    dict_get "to" d = Some to_currency /\
    dict_get "address" d = Some destination_address /\
    dict_get "amount" d = Some amount /\
    dict_get "extraId" d = Some (if is_none extra_id then VStr "null" else extra_id) /\
    dict_get "refundAddress" d = (if a then Some refund_address else None) /\
    dict_get "refundExtraId" d = (if b then Some refund_extra_id else None).
Proof.
  intros Ho Ha Hb.
  set (p0 := [("from", from_currency); ("to", to_currency);
              ("address", destination_address);
              ("extraId", if is_none extra_id then VStr "null" else extra_id);
              ("amount", amount)]).
  set (p1 := if a then dict_set "refundAddress" refund_address p0 else p0).
  set (p2 := if b then dict_set "refundExtraId" refund_extra_id p1 else p1).
  set (q := request_of o w "createTransaction" (VDict p2)).
  assert (E : create_transaction self from_currency to_currency destination_address amount
                extra_id refund_address refund_extra_id w
              = (result_of (post (sent w) q), after_request q w)).
  { unfold create_transaction, bind, lift, ret. rewrite Ha, Hb.
    fold p0. fold p1. fold p2. rewrite (_request_eq _ _ _ _ _ Ho). fold q.
    destruct (result_of (post (sent w) q)); reflexivity. }
  exists q, p2. split.
  { apply dispatched_eq. rewrite E. reflexivity. }
  split; [reflexivity|]. split; [rewrite E; reflexivity|].
  unfold p2, p1, p0. destruct a, b; repeat split; reflexivity.
Qed.

End Validation.

(** * Programs at work *)

Section Programs.

Local Open Scope list_scope.

Import Sample.

#[local] Existing Instance exchange.

(** The service [exchange] quotes 0.001 for every pair. *)
Lemma exchange_quotes_minimum (f t : string) :
  quotes_minimum (rt := exchange) (fun _ _ => 100000%Z) f t.
Proof.
  intros history q Hq. exists (VStr "0.001"), 100000%Z.
  split; [|split; reflexivity].
  destruct q as [u h d e]. cbn [envelope] in Hq. subst e. reflexivity.
Qed.

Lemma session_keeps_caches_witness :
  cache_of (rt := exchange) 0
    (session [(0%nat, GetMinAmount "btc" "eth");
              (0%nat, GetCurrencies);
              (0%nat, CreateTransaction (VStr "btc") (VStr "eth") (VStr "addr") (VInt 1)
                        VNone (VStr "back") (VStr "7"));
              (0%nat, GetExchangeAmount (VStr "btc") (VStr "eth") (VStr "0.5"))]
       populated)
  = Some currencies.
Proof.
  apply (session_keeps_caches (rt := exchange)).
  - vm_compute. reflexivity.
  - exists 2%nat. reflexivity.
Defined.

Lemma session_leaves_other_instances_witness :
  nth_error
    (heap (session (rt := exchange)
             [(1%nat, GetCurrencies); (1%nat, GetMinAmount "btc" "eth")]
             (snd (__init__ "key2" "secret2" one_client)))) 0
  = nth_error (heap (snd (__init__ (rt := exchange) "key2" "secret2" one_client))) 0.
Proof.
  apply (session_leaves_other_instances (rt := exchange)).
  repeat constructor; cbn [fst]; discriminate.
Defined.

Lemma get_currencies_stores_any_result_witness :
  cache_of (rt := silent) 0 populated = Some VNone /\
  get_min_amount (rt := silent) 0 "btc" "eth" populated = (Raise TypeError, populated).
Proof.
  pose proof (get_currencies_stores_any_result (rt := silent) 0 one_client populated VNone
                eq_refl eq_refl) as [H1 [_ [H2 _]]].
  split; [exact H1 | exact (H2 "btc" "eth")].
Defined.

Lemma get_currencies_failure_keeps_heap_witness :
  heap (populated (rt := down)) = heap (one_client (rt := down)).
Proof.
  apply (proj1 (get_currencies_failure_keeps_heap (rt := down) 0 one_client populated
                  HTTPError eq_refl)).
Defined.

Lemma exchange_result_rounds_records_witness :
  exchange_result (rt := exchange)
    (VList [VDict [("from", VStr "btc"); ("amount", VStr "0.5"); ("to", VStr "eth")]])
  = Ok (VList [VDict [("from", VStr "btc"); ("amount", VFloat 50000000%Z);
                      ("to", VStr "eth")]]).
Proof.
  apply (proj2 (exchange_result_rounds_records (rt := exchange) _ _)).
  eexists. split; [reflexivity|].
  constructor; [|constructor].
  exists [("from", VStr "btc"); ("amount", VStr "0.5"); ("to", VStr "eth")],
         (VStr "0.5"), 50000000%Z.
  repeat split.
  intros k Hk. apply dict_get_set_other. exact Hk.
Defined.

Lemma exchange_result_bad_record_witness :
  exchange_result (rt := exchange) (VList ([] ++ VInt 1 :: [])) = Raise TypeError.
Proof.
  apply (proj1 (exchange_result_bad_record (rt := exchange) [] [] [] (VInt 1)
                  (Forall2_nil _))).
  intros d. discriminate.
Defined.

Lemma get_exchange_amount_requests_witness :
  map envelope
    (dispatched
       (get_exchange_amount (rt := exchange) 0
          (VList [VStr "BTC"; VStr "eth"]) (VList [VStr "eth"; VStr "btc"]) (VStr "0.5"))
       populated)
  = map lookup_envelope (combine ["btc"; "eth"] ["eth"; "btc"])
    ++ [rpc_envelope "getExchangeAmount"
          (quote_params 50000000%Z (combine ["btc"; "eth"] ["eth"; "btc"]))].
Proof.
  apply (get_exchange_amount_requests (rt := exchange) 0
           (VList [VStr "BTC"; VStr "eth"]) (VList [VStr "eth"; VStr "btc"]) (VStr "0.5")
           populated ["btc"; "eth"] ["eth"; "btc"] 50000000%Z
           [VStr "btc"; VStr "eth"; VStr "ltc"] (fun _ _ => 100000%Z)).
  - reflexivity.
  - reflexivity.
  - vm_compute. reflexivity.
  - vm_compute. reflexivity.
  - reflexivity.
  - repeat constructor; apply exchange_quotes_minimum.
  - repeat constructor.
Defined.

Lemma get_exchange_amount_invalid_pair_witness :
  fst (get_exchange_amount (rt := exchange) 0
         (VList [VStr "btc"; VStr "xyz"]) (VList [VStr "eth"; VStr "btc"]) (VStr "0.5")
         populated)
  = Raise invalid_currency /\
  map envelope
    (dispatched
       (get_exchange_amount (rt := exchange) 0
          (VList [VStr "btc"; VStr "xyz"]) (VList [VStr "eth"; VStr "btc"]) (VStr "0.5"))
       populated)
  = map lookup_envelope [("btc", "eth")].
Proof.
  apply (get_exchange_amount_invalid_pair (rt := exchange) 0
           (VList [VStr "btc"; VStr "xyz"]) (VList [VStr "eth"; VStr "btc"]) (VStr "0.5")
           populated ["btc"; "xyz"] ["eth"; "btc"] 50000000%Z
           [VStr "btc"; VStr "eth"; VStr "ltc"] (fun _ _ => 100000%Z)
           [("btc", "eth")] [] "xyz" "btc").
  - reflexivity.
  - reflexivity.
  - vm_compute. reflexivity.
  - vm_compute. reflexivity.
  - exists 2%nat. reflexivity.
  - reflexivity.
  - repeat constructor; apply exchange_quotes_minimum.
  - repeat constructor.
  - reflexivity.
Defined.

Lemma get_transaction_status_spec_witness :
  exists q,
    dispatched (get_transaction_status (rt := exchange) 0 (VInt 42)) one_client = [q] /\
    envelope q = rpc_envelope "getStatus" (VDict [("id", VStr (py_str (VInt 42)))]) /\
    params_of q = Some (VDict [("id", VStr (py_str (VInt 42)))]) /\
    fst (get_transaction_status (rt := exchange) 0 (VInt 42) one_client)
    = result_of (post (sent one_client) q).
Proof.
  destruct (get_transaction_status_spec (rt := exchange) 0 (VInt 42) one_client
              (mkInstance (encode_utf8 "secret") None) eq_refl)
    as [q [H1 [H2 [H3 [H4 _]]]]].
  exists q. repeat split; assumption.
Defined.

(** The identifier goes out as a string. *)
Example status_request_body :
  map data (dispatched (get_transaction_status (rt := exchange) 0 (VInt 42)) one_client)
  = [json_dumps (rpc_envelope "getStatus" (VDict [("id", VStr "42")]))].
Proof. vm_compute. reflexivity. Qed.

Lemma create_transaction_params_witness :
  exists q d,
    dispatched
      (create_transaction (rt := exchange) 0 (VStr "btc") (VStr "eth") (VStr "addr")
         (VInt 1) (VStr "memo") (VStr "back") (VStr EmptyString)) one_client = [q] /\
    envelope q = rpc_envelope "createTransaction" (VDict d) /\
    fst (create_transaction (rt := exchange) 0 (VStr "btc") (VStr "eth") (VStr "addr")
           (VInt 1) (VStr "memo") (VStr "back") (VStr EmptyString) one_client)
    = result_of (post (sent one_client) q) /\
    dict_keys d
      = ["from"; "to"; "address"; "extraId"; "amount"] ++ ["refundAddress"] ++ [] /\
    dict_get "from" d = Some (VStr "btc") /\
    dict_get "to" d = Some (VStr "eth") /\
    dict_get "address" d = Some (VStr "addr") /\
    dict_get "amount" d = Some (VInt 1) /\
    dict_get "extraId" d = Some (VStr "memo") /\
    dict_get "refundAddress" d = Some (VStr "back") /\
    dict_get "refundExtraId" d = None.
Proof.
  apply (create_transaction_params (rt := exchange) 0 (VStr "btc") (VStr "eth")
           (VStr "addr") (VInt 1) (VStr "memo") (VStr "back") (VStr EmptyString)
           one_client (mkInstance (encode_utf8 "secret") None) true false).
  - reflexivity.
  - reflexivity.
  - reflexivity.
Defined.

(** X1 and X4 on a program: the key and the secret stay, the requests are the
    ones of the calls. *)
Example program_requests :
  map method_of
    (sent (session (rt := exchange)
             [(0%nat, GetExchangeAmount (VStr "btc") (VStr "eth") (VStr "0.5"));
              (0%nat, GetTransactionStatus (VStr "tx1"))]
             one_client))
  = [Some (VStr "getCurrencies"); Some (VStr "getMinAmount");
     Some (VStr "getExchangeAmount"); Some (VStr "getStatus")].
Proof. vm_compute. reflexivity. Qed.

End Programs.
